(** * Interior-Designer-AI: the generation service adapter and the workflow
      controller, embedded from [src/services/geminiService.ts], [src/App.tsx]
      and [src/types.ts].

    A JavaScript string is modelled as the list of its UTF-16 code units,
    [null]/[undefined] as [None], a promise that settles as an [outcome]
    (fulfilled or rejected), and each remote call, console message or React
    state setter as an event appended to a log. *)

From Stdlib Require Import String Ascii List ZArith NArith Bool Lia.
From Stdlib Require Import DecimalString Permutation.
Import ListNotations.

Local Open Scope list_scope.

(** ** The JavaScript notions the source relies on *)
Module JS.

Definition code_unit : Type := N.
Definition jsstring : Type := list code_unit.

  (** A string literal of the source, as code units. *)
Definition js (s : string) : jsstring :=
  map N_of_ascii (list_ascii_of_string s).

  (** The code unit of one character. *)
Definition cu (c : ascii) : code_unit := N_of_ascii c.

Definition is_char (c : code_unit) (a : ascii) : bool := N.eqb c (cu a).

  (** The double quote and the backslash. *)
Definition dquote : code_unit := 34%N.
Definition backslash : code_unit := 92%N.

  (** [===] on strings. *)
Fixpoint str_eqb (a b : jsstring) : bool :=
  match a, b with
  | [], [] => true
  | x :: a', y :: b' => N.eqb x y && str_eqb a' b'
  | _, _ => false
  end.

  (** [String.prototype.split] with a one-code-unit separator: the pieces
      between the separators, in order; never the empty array. *)
Fixpoint split (sep : code_unit) (s : jsstring) : list jsstring :=
  match s with
  | [] => [[]]
  | c :: rest =>
      if N.eqb c sep then [] :: split sep rest
      else match split sep rest with
           | seg :: segs => (c :: seg) :: segs
           | [] => [[c]]
           end
  end.

  (** [Array.prototype.join]. *)
Fixpoint join (sep : jsstring) (l : list jsstring) : jsstring :=
  match l with
  | [] => []
  | [x] => x
  | x :: rest => x ++ sep ++ join sep rest
  end.

  (** Truthiness of a [string | undefined | null] value: [undefined], [null]
      and the empty string are falsy. *)
Definition truthy (v : option jsstring) : bool :=
  match v with
  | Some [] | None => false
  | Some _ => true
  end.

  (** What a truthiness test lets through: [v] when truthy. *)
Definition narrow (v : option jsstring) : option jsstring :=
  if truthy v then v else None.

  (** [v || d] on a [string | undefined] left operand. *)
Definition or_else (v : option jsstring) (d : jsstring) : jsstring :=
  match narrow v with
  | Some s => s
  | None => d
  end.

  (** [String.prototype.includes] for one code unit. *)
Definition includes (c : code_unit) (s : jsstring) : bool :=
  existsb (N.eqb c) s.

  (** A template literal's rendering of a [string | undefined] hole. *)
Definition to_template (v : option jsstring) : jsstring :=
  match v with
  | Some s => s
  | None => js "undefined"
  end.

  (** A template literal's rendering of a non-negative integer. *)
Definition number_to_string (n : nat) : jsstring :=
  js (NilEmpty.string_of_uint (Nat.to_uint n)).

  (** [arr.slice(0, count)] for an integral [count]: a negative end counts
      from the end of the array, and the result is empty when the end does
      not exceed 0. *)
Definition slice0 {A : Type} (arr : list A) (count : Z) : list A :=
  let len := Z.of_nat (length arr) in
  let final := if (count <? 0)%Z then Z.max (len + count) 0 else Z.min count len in
  firstn (Z.to_nat final) arr.

  (** The errors the program throws or meets. *)
Inductive error : Type :=
| Error (message : jsstring)     (* [new Error(message)] *)
| SyntaxError                    (* thrown by [JSON.parse] *)
| TypeError                      (* a property read on [null] *)
| RemoteError (reason : jsstring) (* the remote call failed *).

  (** A settled promise (or a completed call): fulfilled with a value, or
      rejected with (having thrown) an error. *)
Inductive outcome (A : Type) : Type :=
| Returned (a : A)
| Threw (e : error).
Arguments Returned {A} a.
Arguments Threw {A} e.

  (** Code that logs events of type [Ev] and then returns or throws. *)
Definition M (Ev A : Type) : Type := (list Ev * outcome A)%type.

Definition ret {Ev A} (a : A) : M Ev A := ([], Returned a).

Definition throw {Ev A} (e : error) : M Ev A := ([], Threw e).

Definition emit {Ev} (ev : Ev) : M Ev unit := ([ev], Returned tt).

Definition lift {Ev A} (o : outcome A) : M Ev A := ([], o).

Definition bind {Ev A B} (m : M Ev A) (k : A -> M Ev B) : M Ev B :=
  match m with
  | (log, Returned a) => let (log', r) := k a in (log ++ log', r)
  | (log, Threw e) => (log, Threw e)
  end.

  (** [try { body } catch (e) { handler e }] *)
Definition try_catch {Ev A} (body : M Ev A) (handler : error -> M Ev A) : M Ev A :=
  match body with
  | (log, Returned a) => (log, Returned a)
  | (log, Threw e) => let (log', r) := handler e in (log ++ log', r)
  end.

  (** [try { body } catch (e) { handler e } finally { final }]: [final] runs
      on every path; when it completes normally the outcome is that of the
      try/catch. *)
Definition try_catch_finally {Ev A} (body : M Ev A) (handler : error -> M Ev A)
    (final : M Ev unit) : M Ev A :=
  match try_catch body handler with
  | (log, r) =>
      match final with
      | (log', Returned _) => (log ++ log', r)
      | (log', Threw e) => (log ++ log', Threw e)
      end
  end.

  (** [Promise.all] over promises created in list order: every promise runs
      (its events are logged promise by promise; the interleaving in time of
      events of different promises is not modelled), and the result is the
      list of values in list order, or a rejection when some promise rejects
      (that of the first such promise in the list; which one settles first
      in time is not modelled, and no promise this program passes to
      [Promise.all] ever rejects). In the log, the order of the requests
      among themselves is the code's; the place of a console message
      relative to the events of other promises is not: in the code every
      request is sent before any message, and the messages come in the
      order the rejections arrive. *)
Fixpoint promise_all {Ev A} (ps : list (M Ev A)) : M Ev (list A) :=
  match ps with
  | [] => ([], Returned [])
  | (log, r) :: rest =>
      let (log', rs) := promise_all rest in
      (log ++ log',
       match r, rs with
       | Returned a, Returned l => Returned (a :: l)
       | Threw e, _ => Threw e
       | Returned _, Threw e => Threw e
       end)
  end.

End JS.

Declare Scope js_scope.
Delimit Scope js_scope with js.
Notation "x <- m ;; k" := (JS.bind m (fun x => k))
  (at level 61, m at next level, right associativity) : js_scope.
Notation "m ;; k" := (JS.bind m (fun _ => k))
  (at level 61, right associativity) : js_scope.
Local Open Scope js_scope.

(** ** [JSON.parse] and the values it produces *)
Module Json.
Import JS.

  (** A parsed JSON value. A number keeps its exact decimal reading
      [(-1)^negative * mantissa * 10^exp10]; an object keeps its members in
      source order, duplicates included. *)
#[local] Unset Elimination Schemes.
Inductive value : Type :=
| JNull
| JBool (b : bool)
| JNumber (negative : bool) (mantissa : N) (exp10 : Z)
| JString (s : jsstring)
| JArray (items : list value)
| JObject (members : list (jsstring * value)).
#[local] Set Elimination Schemes.

Inductive token : Type :=
| TLBrace | TRBrace | TLBracket | TRBracket | TColon | TComma
| TScalar (v : value)
| TString (s : jsstring).

  (** Where the scanner stands inside a number: an optional minus; a zero or
      a nonzero digit followed by digits; optionally a point and at least one
      digit; optionally an exponent mark, a sign and at least one digit. *)
Inductive num_phase : Type :=
| NSign | NZero | NInt | NDot | NFrac | NE | NESign | NExp.

Record num_acc : Type := {
  n_neg : bool;      (* a leading minus *)
  n_mant : N;        (* the digits read so far, point removed *)
  n_frac : N;        (* how many of them stand after the point *)
  n_eneg : bool;     (* a minus in the exponent *)
  n_exp : N          (* the exponent's digits *)
}.

Definition num_start (neg : bool) (d : N) : num_acc :=
  {| n_neg := neg; n_mant := d; n_frac := 0; n_eneg := false; n_exp := 0 |}.

Definition num_value (a : num_acc) : value :=
  JNumber (n_neg a) (n_mant a)
    ((if n_eneg a then - Z.of_N (n_exp a) else Z.of_N (n_exp a)) - Z.of_N (n_frac a)).

Inductive mode : Type :=
| LDefault
| LString (rev_chars : jsstring)
| LEscape (rev_chars : jsstring)
| LUnicode (rev_chars : jsstring) (digits : nat) (code : N)
| LWord (expected : jsstring) (v : value)
| LNumber (phase : num_phase) (acc : num_acc).

Definition digit_of (c : code_unit) : option N :=
  if (48 <=? c)%N && (c <=? 57)%N then Some (c - 48)%N else None.

Definition hex_of (c : code_unit) : option N :=
  if (48 <=? c)%N && (c <=? 57)%N then Some (c - 48)%N
  else if (97 <=? c)%N && (c <=? 102)%N then Some (c - 87)%N
  else if (65 <=? c)%N && (c <=? 70)%N then Some (c - 55)%N
  else None.

Definition is_whitespace (c : code_unit) : bool :=
  N.eqb c 32 || N.eqb c 9 || N.eqb c 10 || N.eqb c 13.

  (** One code unit read between tokens. *)
Definition default_step (c : code_unit) : option (list token * mode) :=
  if is_whitespace c then Some ([], LDefault)
  else if is_char c "{" then Some ([TLBrace], LDefault)
  else if is_char c "}" then Some ([TRBrace], LDefault)
  else if is_char c "[" then Some ([TLBracket], LDefault)
  else if is_char c "]" then Some ([TRBracket], LDefault)
  else if is_char c ":" then Some ([TColon], LDefault)
  else if is_char c "," then Some ([TComma], LDefault)
  else if N.eqb c dquote then Some ([], LString [])
  else if is_char c "-" then Some ([], LNumber NSign (num_start true 0))
  else if is_char c "0" then Some ([], LNumber NZero (num_start false 0))
  else if is_char c "n" then Some ([], LWord (js "ull") JNull)
  else if is_char c "t" then Some ([], LWord (js "rue") (JBool true))
  else if is_char c "f" then Some ([], LWord (js "alse") (JBool false))
  else match digit_of c with
       | Some d => Some ([], LNumber NInt (num_start false d))
       | None => None
       end.

Definition push_digit (a : num_acc) (d : N) (after_point : bool) : num_acc :=
  {| n_neg := n_neg a; n_mant := (n_mant a * 10 + d)%N;
     n_frac := if after_point then (n_frac a + 1)%N else n_frac a;
     n_eneg := n_eneg a; n_exp := n_exp a |}.

Definition push_exp (a : num_acc) (d : N) : num_acc :=
  {| n_neg := n_neg a; n_mant := n_mant a; n_frac := n_frac a;
     n_eneg := n_eneg a; n_exp := (n_exp a * 10 + d)%N |}.

Definition exp_minus (a : num_acc) : num_acc :=
  {| n_neg := n_neg a; n_mant := n_mant a; n_frac := n_frac a;
     n_eneg := true; n_exp := n_exp a |}.

  (** The number ends before [c]: emit it and read [c] between tokens. *)
Definition finish_number (a : num_acc) (c : code_unit) : option (list token * mode) :=
  match default_step c with
  | Some (toks, m) => Some (TScalar (num_value a) :: toks, m)
  | None => None
  end.

Definition is_exp_mark (c : code_unit) : bool := is_char c "e" || is_char c "E".

Definition number_step (p : num_phase) (a : num_acc) (c : code_unit)
    : option (list token * mode) :=
  match p, digit_of c with
  | NSign, Some d => Some ([], LNumber (if N.eqb d 0 then NZero else NInt) (push_digit a d false))
  | NSign, None => None
  | NZero, _ =>
      if is_char c "." then Some ([], LNumber NDot a)
      else if is_exp_mark c then Some ([], LNumber NE a)
      else finish_number a c
  | NInt, Some d => Some ([], LNumber NInt (push_digit a d false))
  | NInt, None =>
      if is_char c "." then Some ([], LNumber NDot a)
      else if is_exp_mark c then Some ([], LNumber NE a)
      else finish_number a c
  | NDot, Some d => Some ([], LNumber NFrac (push_digit a d true))
  | NDot, None => None
  | NFrac, Some d => Some ([], LNumber NFrac (push_digit a d true))
  | NFrac, None =>
      if is_exp_mark c then Some ([], LNumber NE a) else finish_number a c
  | NE, Some d => Some ([], LNumber NExp (push_exp a d))
  | NE, None =>
      if is_char c "+" then Some ([], LNumber NESign a)
      else if is_char c "-" then Some ([], LNumber NESign (exp_minus a))
      else None
  | NESign, Some d => Some ([], LNumber NExp (push_exp a d))
  | NESign, None => None
  | NExp, Some d => Some ([], LNumber NExp (push_exp a d))
  | NExp, None => finish_number a c
  end.

Definition escape_step (rev_chars : jsstring) (c : code_unit) : option (list token * mode) :=
  if N.eqb c dquote || N.eqb c backslash || is_char c "/" then Some ([], LString (c :: rev_chars))
  else if is_char c "b" then Some ([], LString (8%N :: rev_chars))
  else if is_char c "f" then Some ([], LString (12%N :: rev_chars))
  else if is_char c "n" then Some ([], LString (10%N :: rev_chars))
  else if is_char c "r" then Some ([], LString (13%N :: rev_chars))
  else if is_char c "t" then Some ([], LString (9%N :: rev_chars))
  else if is_char c "u" then Some ([], LUnicode rev_chars 0 0%N)
  else None.

Definition lex_step (m : mode) (c : code_unit) : option (list token * mode) :=
  match m with
  | LDefault => default_step c
  | LString rev_chars =>
      if N.eqb c dquote then Some ([TString (rev rev_chars)], LDefault)
      else if N.eqb c backslash then Some ([], LEscape rev_chars)
      else if (c <? 32)%N then None
      else Some ([], LString (c :: rev_chars))
  | LEscape rev_chars => escape_step rev_chars c
  | LUnicode rev_chars digits code =>
      match hex_of c with
      | Some h =>
          let code' := (code * 16 + h)%N in
          if Nat.eqb digits 3 then Some ([], LString (code' :: rev_chars))
          else Some ([], LUnicode rev_chars (S digits) code')
      | None => None
      end
  | LWord expected v =>
      match expected with
      | [] => None
      | e :: rest =>
          if N.eqb c e
          then match rest with
               | [] => Some ([TScalar v], LDefault)
               | _ :: _ => Some ([], LWord rest v)
               end
          else None
      end
  | LNumber p a => number_step p a c
  end.

  (** What the end of the text makes of the scanner's state. *)
Definition lex_end (m : mode) : option (list token) :=
  match m with
  | LDefault => Some []
  | LNumber (NZero | NInt | NFrac | NExp) a => Some [TScalar (num_value a)]
  | _ => None
  end.

Fixpoint lex (m : mode) (text : jsstring) : option (list token) :=
  match text with
  | [] => lex_end m
  | c :: rest =>
      match lex_step m c with
      | Some (toks, m') =>
          match lex m' rest with
          | Some more => Some (toks ++ more)
          | None => None
          end
      | None => None
      end
  end.

  (** A container still open while its next element is read. *)
Inductive frame : Type :=
| FArray (rev_items : list value)
| FObject (rev_members : list (jsstring * value)) (key : jsstring).

Inductive pstate : Type :=
| PValue (stack : list frame)            (* a value must follow *)
| PArrayStart (stack : list frame)       (* after [[]: a value or []] *)
| PArrayNext (rev_items : list value) (stack : list frame)
                                         (* after an item: [,] or []] *)
| PObjectStart (stack : list frame)      (* after [{]: a key or [}] *)
| PObjectKey (rev_members : list (jsstring * value)) (stack : list frame)
                                         (* after [,] in an object: a key *)
| PObjectColon (rev_members : list (jsstring * value)) (key : jsstring)
    (stack : list frame)                 (* after a key: [:] *)
| PObjectNext (rev_members : list (jsstring * value)) (stack : list frame)
                                         (* after a member: [,] or [}] *)
| PDone (v : value).                     (* the text's value is complete *)

  (** A value is complete: hand it to the innermost open container. *)
Definition complete (v : value) (stack : list frame) : pstate :=
  match stack with
  | [] => PDone v
  | FArray rev_items :: stack' => PArrayNext (v :: rev_items) stack'
  | FObject rev_members key :: stack' => PObjectNext ((key, v) :: rev_members) stack'
  end.

Definition value_step (stack : list frame) (t : token) : option pstate :=
  match t with
  | TScalar v => Some (complete v stack)
  | TString s => Some (complete (JString s) stack)
  | TLBracket => Some (PArrayStart stack)
  | TLBrace => Some (PObjectStart stack)
  | _ => None
  end.

Definition parse_step (st : pstate) (t : token) : option pstate :=
  match st, t with
  | PValue stack, _ => value_step stack t
  | PArrayStart stack, TRBracket => Some (complete (JArray []) stack)
  | PArrayStart stack, _ => value_step (FArray [] :: stack) t
  | PArrayNext rev_items stack, TComma => Some (PValue (FArray rev_items :: stack))
  | PArrayNext rev_items stack, TRBracket => Some (complete (JArray (rev rev_items)) stack)
  | PObjectStart stack, TRBrace => Some (complete (JObject []) stack)
  | PObjectStart stack, TString k => Some (PObjectColon [] k stack)
  | PObjectKey rev_members stack, TString k => Some (PObjectColon rev_members k stack)
  | PObjectColon rev_members k stack, TColon => Some (PValue (FObject rev_members k :: stack))
  | PObjectNext rev_members stack, TComma => Some (PObjectKey rev_members stack)
  | PObjectNext rev_members stack, TRBrace => Some (complete (JObject (rev rev_members)) stack)
  | _, _ => None
  end.

Fixpoint parse_tokens (st : pstate) (toks : list token) : option value :=
  match toks with
  | [] => match st with PDone v => Some v | _ => None end
  | t :: rest =>
      match parse_step st t with
      | Some st' => parse_tokens st' rest
      | None => None
      end
  end.

  (** [JSON.parse(text)]: the value, or [None] where it throws a
      [SyntaxError]. *)
Definition parse (text : jsstring) : option value :=
  match lex LDefault text with
  | Some toks => parse_tokens (PValue []) toks
  | None => None
  end.

  (** [o[key]] on a parsed object: the last member of that name, since a
      later duplicate overwrites an earlier one. *)
Definition get_member (key : jsstring) (members : list (jsstring * value)) : option value :=
  match find (fun kv => str_eqb (fst kv) key) (rev members) with
  | Some kv => Some (snd kv)
  | None => None
  end.

  (** Whether the number rounds to the double [0] (or [-0]): it is zero, or
      at most [2^-1075], half the least positive double. *)
Definition rounds_to_zero (mantissa : N) (exp10 : Z) : bool :=
  N.eqb mantissa 0
  || ((exp10 <? 0)%Z && (Z.of_N mantissa * 2 ^ 1075 <=? 10 ^ (- exp10))%Z).

  (** Truthiness: [null], [false], [0] and the empty string are falsy. *)
Definition truthy_value (v : value) : bool :=
  match v with
  | JNull => false
  | JBool b => b
  | JNumber _ mantissa exp10 => negb (rounds_to_zero mantissa exp10)
  | JString s => match s with [] => false | _ :: _ => true end
  | JArray _ | JObject _ => true
  end.

  (** [JSON.parse(text)] as a call that returns or throws. *)
Definition JSON_parse (text : jsstring) : outcome value :=
  match parse text with
  | Some v => Returned v
  | None => Threw SyntaxError
  end.

  (** [v.key] for a parsed value [v]: a [TypeError] on [null], the member on
      an object, [undefined] on anything else the text can denote. *)
Definition get_property (v : value) (key : jsstring) : outcome (option value) :=
  match v with
  | JNull => Threw TypeError
  | JObject members => Returned (get_member key members)
  | _ => Returned None
  end.

End Json.

(** ** [src/types.ts] *)
Module Types.
Import JS.

Inductive DesignCategory : Type :=
| LIGHTING | COLOR_PALETTE | LAYOUT | TEXTURES | DECOR.

  (** The string each member of the enum stands for. *)
Definition category_value (c : DesignCategory) : jsstring :=
  match c with
  | LIGHTING => js "Lighting"
  | COLOR_PALETTE => js "Color Palette"
  | LAYOUT => js "Layout & Flow"
  | TEXTURES => js "Textures & Fabrics"
  | DECOR => js "Decor & Styling"
  end.

  (** [type LoadingState = 'idle' | 'cleaning' | 'analyzing' | 'visualizing'] *)
Inductive LoadingState : Type :=
| idle | cleaning | analyzing | visualizing.

  (** [interface DesignAdvice { title; description; principleSource }], all
      strings. The interface is erased at run time: what the program holds
      as advice is whatever [JSON.parse] produced. *)
Definition string_member (key : jsstring) (v : Json.value) : option jsstring :=
  match v with
  | Json.JObject members =>
      match Json.get_member key members with
      | Some (Json.JString s) => Some s
      | _ => None
      end
  | _ => None
  end.

  (** An item that has a non-empty title, description and principleSource. *)
Definition complete_advice (v : Json.value) : bool :=
  truthy (string_member (js "title") v)
  && truthy (string_member (js "description") v)
  && truthy (string_member (js "principleSource") v).

End Types.

(** ** [src/services/geminiService.ts] *)
Module GeminiService.
Import JS Types.

  (** *** The client library's request and response shapes, as far as the
      source reads or writes them *)

Record Blob : Type := { mimeType : option jsstring; data : option jsstring }.

Record Part : Type := { inlineData : option Blob; part_text : option jsstring }.

Record Content : Type := { parts : option (list Part) }.

Record Candidate : Type := { content : option Content }.

Record GenerateContentResponse : Type := {
  text : option jsstring;          (* the [text] getter *)
  candidates : option (list Candidate)
}.

#[local] Unset Elimination Schemes.
Inductive Schema : Type :=
| TypeSTRING
| TypeARRAY (items : Schema)
| TypeOBJECT (properties : list (jsstring * Schema)).
#[local] Set Elimination Schemes.

Record GenerateContentConfig : Type := {
  systemInstruction : jsstring;
  responseMimeType : jsstring;
  responseSchema : Schema
}.

Record GenerateContentParameters : Type := {
  model : jsstring;
  contents : list Part;
  config : option GenerateContentConfig
}.

  (** [{ inlineData: { mimeType, data } }] and [{ text }] *)
Definition inline_part (mime payload : jsstring) : Part :=
  {| inlineData := Some {| mimeType := Some mime; data := Some payload |};
     part_text := None |}.

Definition text_part (t : jsstring) : Part :=
  {| inlineData := None; part_text := Some t |}.

  (** What the code runs in: the key in [process.env.API_KEY], and the remote
      model, which answers a request made with a key by a response or by an
      error. *)
Record Env : Type := {
  API_KEY : option jsstring;
  remote : jsstring -> GenerateContentParameters -> outcome GenerateContentResponse
}.

  (** What the service does that can be seen from outside. *)
Inductive event : Type :=
| Request (apiKey : jsstring) (params : GenerateContentParameters)
| ConsoleError (args : list jsstring) (e : error).

  (** [new GoogleGenAI({ apiKey })] *)
Record GoogleGenAI : Type := { apiKey : jsstring }.

  (** [const getClient = () => { ... }] *)
Definition getClient (env : Env) : outcome GoogleGenAI :=
  match narrow (API_KEY env) with
  | None => Threw (Error (js "API Key is missing."))
  | Some key => Returned {| apiKey := key |}
  end.

  (** [await ai.models.generateContent(params)] *)
Definition generateContent (env : Env) (ai : GoogleGenAI)
    (params : GenerateContentParameters) : M event GenerateContentResponse :=
  emit (Request (apiKey ai) params) ;;
  lift (remote env (apiKey ai) params).

Definition comma : code_unit := cu ",".

  (** [const cleanBase64 = (dataUrl) => dataUrl.split(',')[1] || dataUrl] *)
Definition cleanBase64 (dataUrl : jsstring) : jsstring :=
  or_else (nth_error (split comma dataUrl) 1) dataUrl.

Definition TOP_10_BOOKS : list jsstring :=
  [js "The Interior Design Handbook by Frida Ramstedt";
   js "Domino: The Book of Decorating";
   js "Architectural Digest at 100";
   js "Habitat: The Field Guide to Decorating by Lauren Liess";
   js "Elements of Style by Erin Gates";
   js "Homebody by Joanna Gaines";
   js "Made for Living by Amber Lewis";
   js "Live Beautiful by Athena Calderone";
   js "The Finer Things by Christiane Lemieux";
   js "Vogue Living: Country, City, Coast"].

  (** [response.candidates?.[0]?.content?.parts || []] *)
Definition first_candidate_parts (response : GenerateContentResponse) : list Part :=
  match candidates response with
  | Some (candidate :: _) =>
      match content candidate with
      | Some c => match parts c with Some ps => ps | None => [] end
      | None => []
      end
  | _ => []
  end.

  (** [for (const part of ps) if (part.inlineData) return `data:image/png;base64,${part.inlineData.data}`]:
      the data URL of the first part that carries inline data, if any. *)
Fixpoint first_inline_image (ps : list Part) : option jsstring :=
  match ps with
  | [] => None
  | part :: rest =>
      match inlineData part with
      | Some blob => Some (js "data:image/png;base64," ++ to_template (data blob))
      | None => first_inline_image rest
      end
  end.

Definition declutter_prompt : jsstring :=
  js "Act as a professional home organizer and interior photographer. Your task is to 'digitally declutter' this room. 1) Remove all loose items from floors, tables, and countertops (papers, clothes, toys, trash). 2) Straighten rugs, pillows, and curtains. 3) Keep the architectural structure, lighting, flooring, and main furniture pieces EXACTLY as they are. Do not change the wall color or furniture style. The goal is to make the room look like it was just tidied up for a real estate listing.".

  (** The argument of [generateContent] in [cleanRoomImage]. *)
Definition declutter_request (model imageBase64 : jsstring) : GenerateContentParameters :=
  {| model := model;
     contents := [inline_part (js "image/jpeg") (cleanBase64 imageBase64);
                  text_part declutter_prompt];
     config := None |}.

  (** [export const cleanRoomImage = async (imageBase64) => ...] *)
Definition cleanRoomImage (env : Env) (imageBase64 : jsstring) : M event jsstring :=
  ai <- lift (getClient env) ;;
  let model := js "gemini-2.5-flash-image" in
  try_catch
    (response <- generateContent env ai (declutter_request model imageBase64) ;;
     match first_inline_image (first_candidate_parts response) with
     | Some url => ret url
     | None => throw (Error (js "No image generated."))
     end)
    (fun error =>
       emit (ConsoleError [js "Error cleaning room:"] error) ;;
       throw error).

  (** [TOP_10_BOOKS.map((b, i) => `${i+1}. ${b}`)] *)
Fixpoint numbered (i : nat) (books : list jsstring) : list jsstring :=
  match books with
  | [] => []
  | b :: rest => (number_to_string (i + 1) ++ js ". " ++ b) :: numbered (S i) rest
  end.

Definition analysis_systemInstruction : jsstring :=
  js "
    You are a Senior Interior Design Architect. Your advice is strictly grounded in the principles found in the top 10 interior design books:
    " ++ join [10%N] (numbered 0 TOP_10_BOOKS) ++ js "

    RULES:
    1. ANALYZE the image accurately. Do not hallucinate furniture or windows that are not there.
    2. Suggest improvements based ONLY on the user's selected category.
    3. For every piece of advice, you MUST cite a specific principle or concept from one of the books above.
    4. Be concise and actionable.
  ".

Definition analysis_prompt (category : DesignCategory) : jsstring :=
  (js "
    Analyze this room photo.
    Focus specifically on the category: " ++ [dquote] ++ category_value category ++ [dquote] ++ js ".
    
    Provide 4 distinct, actionable design improvements. 
    
    Return the response as a JSON object with the following schema:
    {
      " ++ [dquote] ++ js "advice" ++ [dquote] ++ js ": [
        { " ++ [dquote] ++ js "title" ++ [dquote] ++ js ": " ++ [dquote] ++ js "Headline" ++ [dquote] ++ js ", " ++ [dquote] ++ js "description" ++ [dquote] ++ js ": " ++ [dquote] ++ js "Detailed advice" ++ [dquote] ++ js ", " ++ [dquote] ++ js "principleSource" ++ [dquote] ++ js ": " ++ [dquote] ++ js "Book Name: Principle Name" ++ [dquote] ++ js " }
      ]
    }
  ").

Definition analysis_responseSchema : Schema :=
  TypeOBJECT
    [(js "advice",
      TypeARRAY
        (TypeOBJECT
           [(js "title", TypeSTRING);
            (js "description", TypeSTRING);
            (js "principleSource", TypeSTRING)]))].

  (** The argument of [generateContent] in [analyzeRoomDesign]. *)
Definition analysis_request (model systemInstruction prompt imageBase64 : jsstring)
    : GenerateContentParameters :=
  {| model := model;
     contents := [inline_part (js "image/jpeg") (cleanBase64 imageBase64);
                  text_part prompt];
     config := Some {| systemInstruction := systemInstruction;
                       responseMimeType := js "application/json";
                       responseSchema := analysis_responseSchema |} |}.

  (** [json.advice || []] *)
Definition advice_or_empty (advice : option Json.value) : Json.value :=
  match advice with
  | Some a => if Json.truthy_value a then a else Json.JArray []
  | None => Json.JArray []
  end.

  (** [export const analyzeRoomDesign = async (imageBase64, category) => ...] *)
Definition analyzeRoomDesign (env : Env) (imageBase64 : jsstring)
    (category : DesignCategory) : M event Json.value :=
  ai <- lift (getClient env) ;;
  let model := js "gemini-3-pro-preview" in
  let systemInstruction := analysis_systemInstruction in
  let prompt := analysis_prompt category in
  try_catch
    (response <- generateContent env ai
                   (analysis_request model systemInstruction prompt imageBase64) ;;
     json <- lift (Json.JSON_parse (or_else (text response) (js "{}"))) ;;
     advice <- lift (Json.get_property json (js "advice")) ;;
     ret (advice_or_empty advice))
    (fun error =>
       emit (ConsoleError [js "Error analyzing room:"] error) ;;
       throw error).

  (** The [switch (category)] that fills [variations]. *)
Definition variations_for (category : DesignCategory) : list jsstring :=
  match category with
  | LIGHTING =>
      [js "Apply the 'Layered Lighting' principle. Show Ambient lighting as the base layer for overall illumination.";
       js "Apply the 'Task Lighting' principle. Focus on direct light for reading or working areas (lamps, under-cabinet).";
       js "Apply the 'Accent Lighting' principle. Highlight architectural features or art with directional spotlights.";
       js "Apply the 'Atmospheric/Mood Lighting' principle. Use warm color temperatures, dimmers, and soft diffusers for a cozy vibe."]
  | LAYOUT =>
      [js "Layout Principle: 'The Triangle of Flow'. Optimize pathways between major furniture pieces for easy movement.";
       js "Layout Principle: 'Social Convergence'. Arrange furniture to face each other to encourage conversation (circular or U-shape).";
       js "Layout Principle: 'Zoning'. Create distinct functional zones (e.g. reading nook vs watching TV) using rugs or furniture placement.";
       js "Layout Principle: 'Symmetry and Balance'. Create a formal, mirror-image arrangement for a calm, stable look."]
  | COLOR_PALETTE =>
      [js "Color Theory: Monochromatic harmony. Use varying shades of a single dominant color found in the room.";
       js "Color Theory: Analogous colors. Use colors that sit next to each other on the color wheel for a serene look.";
       js "Color Theory: Complementary contrast. Introduce accents that are opposite on the color wheel to the main room color.";
       js "Color Theory: The 60-30-10 Rule. 60% dominant neutral, 30% secondary color, 10% bold accent color."]
  | _ =>
      [js "Design Style: Minimalist and Modern. Clean lines, decluttered surfaces, functional furniture.";
       js "Design Style: Organic Modern (Biophilic). Introduce plants, natural wood textures, and soft curves.";
       js "Design Style: Transitional. Blend traditional warmth with modern lines.";
       js "Design Style: Eclectic. Mix textures, eras, and patterns for a collected, curated look."]
  end.

Definition visualization_prompt (variationDescription : jsstring) : jsstring :=
  js "
      Create a photorealistic visualization of this room.
      Keep the room's main structure (walls, windows, floor type) exactly the same.
      Apply this design principle: " ++ variationDescription ++ js ".
      Make it look like a high-end interior design portfolio shot.
    ".

  (** The argument of [generateContent] for one variation. *)
Definition variation_request (model imageBase64 fullPrompt : jsstring)
    : GenerateContentParameters :=
  {| model := model;
     contents := [inline_part (js "image/jpeg") (cleanBase64 imageBase64);
                  text_part fullPrompt];
     config := None |}.

  (** The [async (variationDescription) => ...] mapped over the selected
      variations: the image's data URL, or [null] when the response carries
      no image part or the call failed. *)
Definition generateVariation (env : Env) (ai : GoogleGenAI) (model imageBase64 : jsstring)
    (variationDescription : jsstring) : M event (option jsstring) :=
  let fullPrompt := visualization_prompt variationDescription in
  try_catch
    (result <- generateContent env ai (variation_request model imageBase64 fullPrompt) ;;
     ret (first_inline_image (first_candidate_parts result)))
    (fun e =>
       emit (ConsoleError [js "Failed to generate variation:"; variationDescription] e) ;;
       ret None).

  (** [results.filter((url) => url !== null)] *)
Fixpoint filter_non_null {A : Type} (results : list (option A)) : list A :=
  match results with
  | [] => []
  | Some url :: rest => url :: filter_non_null rest
  | None :: rest => filter_non_null rest
  end.

  (** [export const generateDesignVisualizations = async (imageBase64, category, count = 4) => ...] *)
Definition generateDesignVisualizations (env : Env) (imageBase64 : jsstring)
    (category : DesignCategory) (count : Z) : M event (list jsstring) :=
  ai <- lift (getClient env) ;;
  let model := js "gemini-2.5-flash-image" in
  let variations := variations_for category in
  let selectedVariations := slice0 variations count in
  let promises := map (generateVariation env ai model imageBase64) selectedVariations in
  results <- promise_all promises ;;
  ret (filter_non_null results).

  (** *** What can be observed of a run of the service *)

  (** The requests sent to the remote model, in the order they were made. *)
Definition requests_of (log : list event) : list GenerateContentParameters :=
  flat_map (fun ev => match ev with Request _ params => [params] | ConsoleError _ _ => [] end) log.

  (** The request [analyzeRoomDesign] makes for an image and a category. *)
Definition analysis_request_of (imageBase64 : jsstring) (category : DesignCategory)
    : GenerateContentParameters :=
  analysis_request (js "gemini-3-pro-preview") analysis_systemInstruction
    (analysis_prompt category) imageBase64.

  (** The request [generateDesignVisualizations] makes for one variation. *)
Definition variation_request_of (imageBase64 variationDescription : jsstring)
    : GenerateContentParameters :=
  variation_request (js "gemini-2.5-flash-image") imageBase64
    (visualization_prompt variationDescription).

  (** The images among some results: none for [null]. *)
Definition image_list (o : option jsstring) : list jsstring :=
  match o with Some url => [url] | None => [] end.

  (** What the remote model, asked with [key], yields for one variation: the
      image of its response, or nothing when the request fails or its
      response has no image part. *)
Definition variation_image (env : Env) (key imageBase64 variationDescription : jsstring)
    : option jsstring :=
  match remote env key (variation_request_of imageBase64 variationDescription) with
  | Returned response => first_inline_image (first_candidate_parts response)
  | Threw _ => None
  end.

End GeminiService.

(** ** [src/App.tsx]: the state of the component and its handlers *)
Module App.
Import JS Types.

  (** The component's [useState] cells. [advice] is typed [DesignAdvice[]]
      in the source and holds whatever [analyzeRoomDesign] resolved to. *)
Record AppState : Type := {
  originalImage : option jsstring;
  cleanImage : option jsstring;
  isCleanMode : bool;
  loadingState : LoadingState;
  selectedCategory : DesignCategory;
  advice : Json.value;
  visualizations : list jsstring;
  error : option jsstring;
  isDragging : bool
}.

  (** The initial values given to [useState]. *)
Definition initialState : AppState :=
  {| originalImage := None; cleanImage := None; isCleanMode := false;
     loadingState := idle; selectedCategory := LIGHTING;
     advice := Json.JArray []; visualizations := []; error := None;
     isDragging := false |}.

  (** A call of one of the state setters. *)
Inductive setter : Type :=
| setOriginalImage (v : option jsstring)
| setCleanImage (v : option jsstring)
| setIsCleanMode (v : bool)
| setLoadingState (v : LoadingState)
| setSelectedCategory (v : DesignCategory)
| setAdvice (v : Json.value)
| setVisualizations (v : list jsstring)
| setError (v : option jsstring)
| setIsDragging (v : bool).

  (** A call of one of the functions imported from the service. *)
Inductive call : Type :=
| CleanRoomImage (imageBase64 : jsstring)
| AnalyzeRoomDesign (imageBase64 : jsstring) (category : DesignCategory)
| GenerateDesignVisualizations (imageBase64 : jsstring) (category : DesignCategory)
    (count : Z).

  (** What a handler does, in order: it sets state, and it awaits a service
      call (recorded with what the service did meanwhile). *)
Inductive event : Type :=
| Set_ (s : setter)
| Await (c : call) (service_log : list GeminiService.event).

  (** The three functions imported from [./services/geminiService]. *)
Record Services : Type := {
  cleanRoomImage : jsstring -> M GeminiService.event jsstring;
  analyzeRoomDesign : jsstring -> DesignCategory -> M GeminiService.event Json.value;
  generateDesignVisualizations :
    jsstring -> DesignCategory -> Z -> M GeminiService.event (list jsstring)
}.

  (** The service of this repository, run in [env]. *)
Definition geminiService (env : GeminiService.Env) : Services :=
  {| cleanRoomImage := GeminiService.cleanRoomImage env;
     analyzeRoomDesign := GeminiService.analyzeRoomDesign env;
     generateDesignVisualizations := GeminiService.generateDesignVisualizations env |}.

Definition set (s : setter) : M event unit := emit (Set_ s).

  (** [await f(args)] *)
Definition await {A : Type} (c : call) (promise : M GeminiService.event A) : M event A :=
  ([Await c (fst promise)], snd promise).

  (** [processFile]: the [reader.onload] callback, run with the data URL the
      reader produced for the file. *)
Definition processFile (result : jsstring) : M event unit :=
  set (setOriginalImage (Some result)) ;;
  set (setCleanImage None) ;;
  set (setIsCleanMode false) ;;
  set (setAdvice (Json.JArray [])) ;;
  set (setVisualizations []) ;;
  set (setError None).

  (** [handleCleanCheck], for a change event whose [e.target.checked] is
      [checked], with the state of the render it was created in. *)
Definition handleCleanCheck (svc : Services) (st : AppState) (checked : bool)
    : M event unit :=
  match narrow (originalImage st) with
  | None => ret tt
  | Some originalImage =>
      if negb checked then set (setIsCleanMode false)
      else
        (* User checked the box *)
        if truthy (cleanImage st) then set (setIsCleanMode true)
        else
          set (setLoadingState cleaning) ;;
          set (setError None) ;;
          try_catch_finally
            (cleaned <- await (CleanRoomImage originalImage)
                          (cleanRoomImage svc originalImage) ;;
             set (setCleanImage (Some cleaned)) ;;
             set (setIsCleanMode true))
            (fun err =>
               set (setError (Some (js "Could not clean the room. Please try again."))) ;;
               (* Revert checkbox if failed *)
               set (setIsCleanMode false))
            (set (setLoadingState idle))
  end.

  (** [handleAnalysis], with the state of the render it was created in. *)
Definition handleAnalysis (svc : Services) (st : AppState) : M event unit :=
  match narrow (originalImage st) with
  | None => ret tt
  | Some originalImage =>
      let imageToAnalyze :=
        match isCleanMode st, narrow (cleanImage st) with
        | true, Some cleanImage => cleanImage
        | _, _ => originalImage
        end in
      set (setLoadingState analyzing) ;;
      set (setAdvice (Json.JArray [])) ;;
      set (setVisualizations []) ;;
      set (setError None) ;;
      try_catch_finally
        ((* Step 1: Get Text Advice *)
         adviceResult <- await (AnalyzeRoomDesign imageToAnalyze (selectedCategory st))
                           (analyzeRoomDesign svc imageToAnalyze (selectedCategory st)) ;;
         set (setAdvice adviceResult) ;;
         (* Step 2: Generate Visualizations *)
         set (setLoadingState visualizing) ;;
         visualResult <- await (GenerateDesignVisualizations imageToAnalyze (selectedCategory st) 4)
                           (generateDesignVisualizations svc imageToAnalyze (selectedCategory st) 4) ;;
         set (setVisualizations visualResult))
        (fun err =>
           set (setError (Some (js "Analysis failed. The AI might be busy, please try again."))))
        (set (setLoadingState idle))
  end.

  (** [const activeImage = isCleanMode && cleanImage ? cleanImage : originalImage] *)
Definition activeImage (st : AppState) : option jsstring :=
  match isCleanMode st, narrow (cleanImage st) with
  | true, Some cleanImage => Some cleanImage
  | _, _ => originalImage st
  end.

  (** The [disabled] attributes of the Generate button and of the clean-mode
      checkbox, and the condition under which the dashboard that holds them
      is rendered at all. *)
Definition LoadingState_eqb (a b : LoadingState) : bool :=
  match a, b with
  | idle, idle | cleaning, cleaning | analyzing, analyzing
  | visualizing, visualizing => true
  | _, _ => false
  end.

Definition generate_disabled (st : AppState) : bool :=
  negb (LoadingState_eqb (loadingState st) idle).

Definition clean_checkbox_disabled (st : AppState) : bool :=
  LoadingState_eqb (loadingState st) cleaning.

Definition dashboard_rendered (st : AppState) : bool :=
  truthy (originalImage st).

  (** *** How the logged events act on the state *)

Definition apply_setter (s : setter) (st : AppState) : AppState :=
  match s with
  | setOriginalImage v =>
      {| originalImage := v; cleanImage := cleanImage st; isCleanMode := isCleanMode st;
         loadingState := loadingState st; selectedCategory := selectedCategory st;
         advice := advice st; visualizations := visualizations st; error := error st;
         isDragging := isDragging st |}
  | setCleanImage v =>
      {| originalImage := originalImage st; cleanImage := v; isCleanMode := isCleanMode st;
         loadingState := loadingState st; selectedCategory := selectedCategory st;
         advice := advice st; visualizations := visualizations st; error := error st;
         isDragging := isDragging st |}
  | setIsCleanMode v =>
      {| originalImage := originalImage st; cleanImage := cleanImage st; isCleanMode := v;
         loadingState := loadingState st; selectedCategory := selectedCategory st;
         advice := advice st; visualizations := visualizations st; error := error st;
         isDragging := isDragging st |}
  | setLoadingState v =>
      {| originalImage := originalImage st; cleanImage := cleanImage st;
         isCleanMode := isCleanMode st; loadingState := v;
         selectedCategory := selectedCategory st;
         advice := advice st; visualizations := visualizations st; error := error st;
         isDragging := isDragging st |}
  | setSelectedCategory v =>
      {| originalImage := originalImage st; cleanImage := cleanImage st;
         isCleanMode := isCleanMode st; loadingState := loadingState st;
         selectedCategory := v;
         advice := advice st; visualizations := visualizations st; error := error st;
         isDragging := isDragging st |}
  | setAdvice v =>
      {| originalImage := originalImage st; cleanImage := cleanImage st;
         isCleanMode := isCleanMode st; loadingState := loadingState st;
         selectedCategory := selectedCategory st;
         advice := v; visualizations := visualizations st; error := error st;
         isDragging := isDragging st |}
  | setVisualizations v =>
      {| originalImage := originalImage st; cleanImage := cleanImage st;
         isCleanMode := isCleanMode st; loadingState := loadingState st;
         selectedCategory := selectedCategory st;
         advice := advice st; visualizations := v; error := error st;
         isDragging := isDragging st |}
  | setError v =>
      {| originalImage := originalImage st; cleanImage := cleanImage st;
         isCleanMode := isCleanMode st; loadingState := loadingState st;
         selectedCategory := selectedCategory st;
         advice := advice st; visualizations := visualizations st; error := v;
         isDragging := isDragging st |}
  | setIsDragging v =>
      {| originalImage := originalImage st; cleanImage := cleanImage st;
         isCleanMode := isCleanMode st; loadingState := loadingState st;
         selectedCategory := selectedCategory st;
         advice := advice st; visualizations := visualizations st; error := error st;
         isDragging := v |}
  end.

Definition apply_event (st : AppState) (ev : event) : AppState :=
  match ev with
  | Set_ s => apply_setter s st
  | Await _ _ => st
  end.

  (** The state once every setter call of the log has been applied. *)
Definition run (st : AppState) (log : list event) : AppState :=
  fold_left apply_event log st.

  (** The values [loadingState] takes: the one it starts with, then each
      value written to it, in order. *)
Definition loading_trace (st : AppState) (log : list event) : list LoadingState :=
  loadingState st ::
  flat_map (fun ev => match ev with Set_ (setLoadingState v) => [v] | _ => [] end) log.


  (** The service calls of a log, and the remote requests made within them. *)
Definition service_calls (log : list event) : list call :=
  flat_map (fun ev => match ev with Await c _ => [c] | Set_ _ => [] end) log.

Definition remote_requests (log : list event) : list GeminiService.GenerateContentParameters :=
  flat_map (fun ev =>
    match ev with
    | Await _ service_log => GeminiService.requests_of service_log
    | Set_ _ => []
    end) log.

  (** The one message [handleAnalysis] shows for a failure. *)
Definition analysis_failed_message : jsstring :=
  js "Analysis failed. The AI might be busy, please try again.".

End App.

(** ** Concrete inputs used in the examples below *)
Module Fixtures.
Import JS GeminiService.

  (** A JSON text written with apostrophes where the text has double
      quotes. *)
Definition json_text (s : string) : jsstring :=
  map (fun c => if N.eqb c 39 then dquote else c) (js s).

  (** A response that carries [t] as its text and no candidates. *)
Definition text_response (t : jsstring) : GenerateContentResponse :=
  {| text := Some t; candidates := None |}.

  (** A response whose first candidate holds one inline image. *)
Definition image_response (payload : jsstring) : GenerateContentResponse :=
  {| text := None;
     candidates := Some [{| content := Some {| parts :=
       Some [inline_part (js "image/png") payload] |} |}] |}.

  (** A response whose first candidate holds text only. *)
Definition no_image_response : GenerateContentResponse :=
  {| text := Some (js "Sorry.");
     candidates := Some [{| content := Some {| parts :=
       Some [text_part (js "Sorry.")] |} |}] |}.

  (** An environment with a key, whose remote answers every request with
      [r]. *)
Definition env_answering (r : outcome GenerateContentResponse) : Env :=
  {| API_KEY := Some (js "key"); remote := fun _ _ => r |}.

  (** An environment with a key, whose remote fails on the variation
      [failing] and answers any other request with an image whose payload is
      the request's prompt. *)
Definition prompt_of (params : GenerateContentParameters) : jsstring :=
  match contents params with
  | [_; p] => to_template (part_text p)
  | _ => []
  end.

Definition env_failing_on (failing : jsstring) : Env :=
  {| API_KEY := Some (js "key");
     remote := fun _ params =>
       if str_eqb (prompt_of params) (visualization_prompt failing)
       then Threw (RemoteError (js "503"))
       else Returned (image_response (prompt_of params)) |}.

  (** The same, with a response without an image part in place of the
      failure. *)
Definition env_without_image_on (failing : jsstring) : Env :=
  {| API_KEY := Some (js "key");
     remote := fun _ params =>
       if str_eqb (prompt_of params) (visualization_prompt failing)
       then Returned no_image_response
       else Returned (image_response (prompt_of params)) |}.

  (** A response text with four complete recommendations, and one that
      conforms to the response schema just as well while its last item has
      empty strings. *)
Definition advice_text : jsstring :=
  json_text "{'advice': [
    {'title': 'Layer the light', 'description': 'Add a floor lamp by the sofa.',
     'principleSource': 'Domino: Layered Lighting'},
    {'title': 'Warm the bulbs', 'description': 'Use 2700K bulbs.',
     'principleSource': 'Homebody: Mood'},
    {'title': 'Light the art', 'description': 'Aim a spot at the print.',
     'principleSource': 'Elements of Style: Accent'},
    {'title': 'Dim it', 'description': 'Fit a dimmer.',
     'principleSource': 'Made for Living: Atmosphere'}]}".

Definition hollow_advice_text : jsstring :=
  json_text "{'advice': [
    {'title': 'Layer the light', 'description': 'Add a floor lamp by the sofa.',
     'principleSource': 'Domino: Layered Lighting'},
    {'title': 'Warm the bulbs', 'description': 'Use 2700K bulbs.',
     'principleSource': 'Homebody: Mood'},
    {'title': 'Light the art', 'description': 'Aim a spot at the print.',
     'principleSource': 'Elements of Style: Accent'},
    {'title': '', 'description': '', 'principleSource': ''}]}".

  (** The [advice] array of a parsed text, when it has one. *)
Definition advice_items (t : jsstring) : list Json.value :=
  match Json.parse t with
  | Some (Json.JObject members) =>
      match Json.get_member (js "advice") members with
      | Some (Json.JArray items) => items
      | _ => []
      end
  | _ => []
  end.

  (** An uploaded photo, as [FileReader.readAsDataURL] delivers it, and a
      second one. *)
Definition photo : jsstring := js "data:image/jpeg;base64,/9j/4AAQ".

Definition other_photo : jsstring := js "data:image/png;base64,iVBORw0KGgo".

  (** The state after the first upload of [photo]. *)
Definition uploaded : App.AppState :=
  App.run App.initialState (fst (App.processFile photo)).

  (** The same with an earlier cleaned image in the cache and clean mode
      on. *)
Definition uploaded_clean : App.AppState :=
  App.run uploaded
    [App.Set_ (App.setCleanImage (Some (js "data:image/png;base64,Q0xFQU4")));
     App.Set_ (App.setIsCleanMode true)].

  (** The service of the repository, and a service whose key is gone by the
      time the visualizations are requested. *)
Definition advising_service : App.Services :=
  App.geminiService (env_answering (Returned (text_response advice_text))).

Definition failing_service : App.Services :=
  App.geminiService (env_answering (Threw (RemoteError (js "503")))).

Definition service_losing_key : App.Services :=
  {| App.cleanRoomImage := App.cleanRoomImage advising_service;
     App.analyzeRoomDesign := App.analyzeRoomDesign advising_service;
     App.generateDesignVisualizations :=
       generateDesignVisualizations {| API_KEY := None; remote := fun _ _ => Threw SyntaxError |} |}.

End Fixtures.

(** ** [src/App.tsx]: the file, drag and drop handlers *)
Module Upload.
Import JS Types App.

  (** [String.prototype.startsWith] *)
Fixpoint startsWith (s prefix : jsstring) : bool :=
  match prefix, s with
  | [], _ => true
  | p :: prefix', c :: s' => N.eqb c p && startsWith s' prefix'
  | _ :: _, [] => false
  end.

  (** A [File] as the handlers use it: its [type], and the data URL a
      [FileReader] delivers for it to [onload] ([None] when the read fails
      and [onload] never fires). *)
Record File : Type := { file_type : jsstring; file_dataUrl : option jsstring }.

  (** What a handler of a DOM event does: it may cancel the event's default
      action, open the file picker, and update the state. *)
Inductive ui_event : Type :=
| PreventDefault
| OpenFilePicker
| Update (ev : App.event).

Definition update {A : Type} (m : M App.event A) : M ui_event A :=
  (map Update (fst m), snd m).

  (** [processFile(file)]: the reader is started, and once it has loaded
      the file the [onload] callback runs with the result. *)
Definition processFile_file (file : File) : M ui_event unit :=
  match file_dataUrl file with
  | Some result => update (processFile result)
  | None => ret tt
  end.

  (** [e.target.files && e.target.files[0]], likewise for
      [e.dataTransfer.files]: a [FileList] is truthy even when empty. *)
Definition first_file (files : option (list File)) : option File :=
  match files with
  | Some (file :: _) => Some file
  | _ => None
  end.

  (** [handleImageUpload], for a change event of a file input. *)
Definition handleImageUpload (files : option (list File)) : M ui_event unit :=
  match first_file files with
  | Some file => processFile_file file
  | None => ret tt
  end.

  (** [handleDragOver] *)
Definition handleDragOver : M ui_event unit :=
  emit PreventDefault ;;
  update (set (setIsDragging true)).

  (** [handleDragLeave]; [related_inside] is
      [e.currentTarget.contains(e.relatedTarget)]. *)
Definition handleDragLeave (related_inside : bool) : M ui_event unit :=
  emit PreventDefault ;;
  (* Only set to false if we are actually leaving the drop zone container *)
  if negb related_inside then update (set (setIsDragging false)) else ret tt.

  (** [handleDrop] *)
Definition handleDrop (files : option (list File)) : M ui_event unit :=
  emit PreventDefault ;;
  update (set (setIsDragging false)) ;;
  match first_file files with
  | Some file =>
      if startsWith (file_type file) (js "image/") then processFile_file file
      else ret tt
  | None => ret tt
  end.

  (** The element [fileInputRef] points to: the file input is rendered in
      the landing view only, so the ref is [null] once the dashboard is
      shown. *)
Definition fileInputRef_current (st : AppState) : bool :=
  negb (dashboard_rendered st).

  (** [const triggerUpload = () => fileInputRef.current?.click()] *)
Definition triggerUpload (st : AppState) : M ui_event unit :=
  if fileInputRef_current st then emit OpenFilePicker else ret tt.

  (** The state updates among the events of a handler, and the state after
      them. *)
Definition state_events (log : list ui_event) : list App.event :=
  flat_map (fun ev => match ev with Update e => [e] | _ => [] end) log.

Definition run_ui (st : AppState) (log : list ui_event) : AppState :=
  run st (state_events log).

End Upload.

(** ** [src/App.tsx]: what the component renders *)
Module View.
Import JS Types App.

  (** The string a [LoadingState] is. *)
Definition loading_value (l : LoadingState) : jsstring :=
  match l with
  | idle => js "idle"
  | cleaning => js "cleaning"
  | analyzing => js "analyzing"
  | visualizing => js "visualizing"
  end.

  (** [{activeImage && <img src={activeImage} ... />}] *)
Definition image_src (st : AppState) : option jsstring := narrow (activeImage st).

  (** [{visualizations.length > 0 && ...}] and its heading
      [Visualizations: {selectedCategory} Principles]. *)
Definition gallery_rendered (st : AppState) : bool :=
  match visualizations st with [] => false | _ :: _ => true end.

Definition gallery_heading (st : AppState) : jsstring :=
  js "Visualizations: " ++ category_value (selectedCategory st) ++ js " Principles".

  (** [{loadingState === 'visualizing' && ...}]: the four pulsing tiles. *)
Definition skeleton_rendered (st : AppState) : bool :=
  LoadingState_eqb (loadingState st) visualizing.

  (** The label of the Generate button:
      [loadingState === 'analyzing' || loadingState === 'visualizing'] *)
Definition generate_busy (st : AppState) : bool :=
  LoadingState_eqb (loadingState st) analyzing
  || LoadingState_eqb (loadingState st) visualizing.

  (** The label of the checkbox. *)
Definition checkbox_label (st : AppState) : jsstring :=
  if LoadingState_eqb (loadingState st) cleaning
  then js "Tidying up..." else js "Clean my room".

  (** [{error && <p ...>{error}</p>}] *)
Definition error_rendered (st : AppState) : option jsstring := narrow (error st).

  (** The last branch of the advice column,
      [advice.length > 0 ? cards : (!loadingState && placeholder)]:
      whether the placeholder is rendered, given what [advice.length > 0]
      evaluates to. *)
Definition placeholder_rendered (advice_has_items : bool) (st : AppState) : bool :=
  if advice_has_items then false
  else negb (truthy (Some (loading_value (loadingState st)))).

End View.

(** ** Sessions: user actions, each handled to completion *)
Module Session.
Import JS Types App Upload.

  (** What a user can do. An action that reaches the service carries the
      environment the service runs in at that time. *)
Inductive action : Type :=
| PickFile (files : option (list File))      (* a file input changes *)
| DragOver
| DragLeave (related_inside : bool)
| DropFile (files : option (list File))
| NewImage                                   (* the New Image button *)
| ToggleClean (env : GeminiService.Env) (checked : bool)
| SelectCategory (category : DesignCategory)
| Generate (env : GeminiService.Env).

  (** Whether the control of an action is rendered and not disabled: the
      file inputs and the drop zone belong to the landing view, everything
      else to the dashboard. *)
Definition available (st : AppState) (a : action) : bool :=
  match a with
  | PickFile _ | DragOver | DragLeave _ | DropFile _ => negb (dashboard_rendered st)
  | NewImage | SelectCategory _ => dashboard_rendered st
  | ToggleClean _ _ => dashboard_rendered st && negb (clean_checkbox_disabled st)
  | Generate _ => dashboard_rendered st && negb (generate_disabled st)
  end.

  (** The handler an action runs. *)
Definition handler (st : AppState) (a : action) : M ui_event unit :=
  match a with
  | PickFile files => handleImageUpload files
  | DragOver => handleDragOver
  | DragLeave related_inside => handleDragLeave related_inside
  | DropFile files => handleDrop files
  | NewImage => triggerUpload st
  | ToggleClean env checked => update (handleCleanCheck (geminiService env) st checked)
  | SelectCategory category => update (set (setSelectedCategory category))
  | Generate env => update (handleAnalysis (geminiService env) st)
  end.

  (** The state after an action has been handled to completion; an action
      whose control is not available does not happen. *)
Definition perform (st : AppState) (a : action) : AppState :=
  if available st a then run_ui st (fst (handler st a)) else st.

Definition session (actions : list action) : AppState :=
  fold_left perform actions initialState.

End Session.

(** ** What the further properties observe *)
Module Observe.
Import JS Types GeminiService.

  (** The prefix of every data URL the service builds. *)
Definition png_prefix : jsstring := js "data:image/png;base64,".

  (** The [console.error] calls of a run of the service. *)
Definition console_errors_of (log : list event) : list (list jsstring * error) :=
  flat_map (fun ev => match ev with
                      | ConsoleError args e => [(args, e)]
                      | Request _ _ => []
                      end) log.

  (** The request [cleanRoomImage] makes for an image. *)
Definition declutter_request_of (imageBase64 : jsstring) : GenerateContentParameters :=
  declutter_request (js "gemini-2.5-flash-image") imageBase64.

  (** Whether the request of one variation fails. *)
Definition variation_fails (env : Env) (key imageBase64 variationDescription : jsstring) : bool :=
  match remote env key (variation_request_of imageBase64 variationDescription) with
  | Threw _ => true
  | Returned _ => false
  end.

End Observe.

(** ** The messages and states the further properties name *)
Module Outcome.
Import JS Types App.

  (** The message [handleCleanCheck] shows for a failure. *)
Definition clean_failed_message : jsstring :=
  js "Could not clean the room. Please try again.".

  (** The state while the [k]-th event of a handler's log is under way:
      the events before it have been applied. *)
Definition state_before (st : AppState) (log : list event) (k : nat) : AppState :=
  run st (firstn k log).

End Outcome.

(** ** What holds of the state between two actions *)
Module Invariant.
Import JS Types App Observe Outcome.

Definition at_rest (st : AppState) : Prop :=
  loadingState st = idle
  /\ (dashboard_rendered st = false ->
      cleanImage st = None /\ isCleanMode st = false /\ advice st = Json.JArray []
      /\ visualizations st = [] /\ error st = None)
  /\ (forall cleaned, cleanImage st = Some cleaned ->
                      Upload.startsWith cleaned png_prefix = true)
  /\ (isCleanMode st = true -> cleanImage st <> None)
  /\ length (visualizations st) <= 4
  /\ Forall (fun url => Upload.startsWith url png_prefix = true) (visualizations st)
  /\ (error st = None \/ error st = Some analysis_failed_message
      \/ error st = Some clean_failed_message).

End Invariant.

(** ** A concrete session *)
Module SessionFixtures.
Import JS Types App Upload Session.

Definition photo_file : File :=
  {| file_type := js "image/jpeg"; file_dataUrl := Some Fixtures.photo |}.

Definition other_file : File :=
  {| file_type := js "image/png"; file_dataUrl := Some Fixtures.other_photo |}.

  (** An environment whose remote answers every request with one image. *)
Definition imaging_env : GeminiService.Env :=
  Fixtures.env_answering (Returned (Fixtures.image_response (js "Q0xFQU4"))).

  (** Pick a photo, have it cleaned, generate ideas, then try another
      photo through the New Image button and through the picker. *)
Definition first_steps : list action :=
  [PickFile (Some [photo_file]); ToggleClean imaging_env true; Generate imaging_env].

Definition later_steps : list action :=
  [NewImage; PickFile (Some [other_file]); DropFile (Some [other_file]);
   SelectCategory LAYOUT; Generate imaging_env].

End SessionFixtures.

(** ** Handlers that run side by side *)
Module Interleave.
Import JS Types App.

  (** The events of two handlers merged into one sequence: [picks] says,
      event by event, which of the two goes next ([true] for the first);
      each handler's own order is kept, and when the picks run out the rest
      of the first is followed by the rest of the second. A handler only
      yields to another at an [Await]; the merge allows every switch point,
      those included. *)
Fixpoint interleave (picks : list bool) (a b : list event) : list event :=
  match picks with
  | [] => a ++ b
  | true :: picks' =>
      match a with
      | ev :: a' => ev :: interleave picks' a' b
      | [] => b
      end
  | false :: picks' =>
      match b with
      | ev :: b' => ev :: interleave picks' a b'
      | [] => a
      end
  end.


Definition is_await (ev : event) : bool :=
  match ev with
  | Await _ _ => true
  | Set_ _ => false
  end.

  (** The awaited service calls of a log, each with what the service did. *)
Definition awaited (log : list event) : list event := filter is_await log.


  (** The events a handler has run since it last resumed: those of [done]
      after its last [Await]. They run in one go, with no other handler in
      between. *)
Definition since_last_await (done : list event) : list event :=
  fold_left (fun segment ev => if is_await ev then [] else segment ++ [ev]) done [].

End Interleave.

(** * Properties *)

(** ** The base64 helper *)
Module Base64Facts.
Import JS GeminiService.

Lemma includes_cons c d s :
  includes c (d :: s) = false -> N.eqb d c = false /\ includes c s = false.
Proof.
  unfold includes; simpl. intros H.
  apply orb_false_iff in H. destruct H as [Hd Hs].
  rewrite N.eqb_sym. auto.
Qed.

Lemma split_no_sep sep s :
  includes sep s = false -> split sep s = [s].
Proof.
  induction s as [|c rest IH]; [reflexivity|].
  intros H. apply includes_cons in H. destruct H as [Hc Hrest].
  simpl. rewrite Hc, (IH Hrest). reflexivity.
Qed.

Lemma split_app_sep sep p rest :
  includes sep p = false ->
  split sep (p ++ sep :: rest) = p :: split sep rest.
Proof.
  induction p as [|c p IH]; intros H.
  - simpl. rewrite N.eqb_refl. reflexivity.
  - apply includes_cons in H. destruct H as [Hc Hp].
    simpl. rewrite Hc, (IH Hp). reflexivity.
Qed.

  (** The first piece of a split is what stands before the first separator,
      or everything when there is none. *)
Lemma split_head sep seg rest :
  includes sep seg = false ->
  rest = [] \/ (exists r, rest = sep :: r) ->
  exists tl, split sep (seg ++ rest) = seg :: tl.
Proof.
  intros Hseg [-> | [r ->]].
  - exists []. rewrite app_nil_r. now apply split_no_sep.
  - exists (split sep r). now apply split_app_sep.
Qed.

Lemma or_else_some s d :
  or_else (Some s) d = match s with [] => d | _ :: _ => s end.
Proof. destruct s; reflexivity. Qed.

(** C9, as the code has it. [cleanBase64] keeps a string without a comma
    unchanged. For a string with a comma it looks at the piece between the
    first comma and the second one (or the end of the string when there is
    no second comma): a non-empty piece is the payload, and with an empty
    piece the whole original string is used. So for a string with exactly
    one comma the payload is the substring after the comma when that is
    non-empty, and the whole string otherwise. *)
Theorem cleanBase64_spec (dataUrl : jsstring) :
  (includes comma dataUrl = false -> cleanBase64 dataUrl = dataUrl) /\
  (forall prefix piece rest,
      dataUrl = prefix ++ comma :: piece ++ rest ->
      includes comma prefix = false ->
      includes comma piece = false ->
      rest = [] \/ (exists r, rest = comma :: r) ->
      cleanBase64 dataUrl = match piece with [] => dataUrl | _ :: _ => piece end) /\
  (forall prefix payload,
      dataUrl = prefix ++ comma :: payload ->
      includes comma prefix = false ->
      includes comma payload = false ->
      cleanBase64 dataUrl = match payload with [] => dataUrl | _ :: _ => payload end).
Proof.
  assert (Hpiece : forall prefix piece rest,
      dataUrl = prefix ++ comma :: piece ++ rest ->
      includes comma prefix = false ->
      includes comma piece = false ->
      rest = [] \/ (exists r, rest = comma :: r) ->
      cleanBase64 dataUrl = match piece with [] => dataUrl | _ :: _ => piece end).
  { intros prefix piece rest -> Hprefix Hpiece Hrest.
    unfold cleanBase64.
    rewrite (split_app_sep comma prefix (piece ++ rest) Hprefix).
    destruct (split_head comma piece rest Hpiece Hrest) as [tl ->].
    simpl nth_error. apply or_else_some. }
  split; [|split].
  - intros H. unfold cleanBase64. rewrite (split_no_sep _ _ H). reflexivity.
  - exact Hpiece.
  - intros prefix payload Hurl Hprefix Hpayload.
    apply (Hpiece prefix payload []); auto.
    now rewrite app_nil_r.
Qed.

Lemma cleanBase64_spec_witness :
  cleanBase64 Fixtures.photo = js "/9j/4AAQ" /\
  cleanBase64 (js "/9j/4AAQ") = js "/9j/4AAQ" /\
  cleanBase64 (js "data:,") = js "data:,".
Proof.
  split; [|split].
  - exact (proj2 (proj2 (cleanBase64_spec Fixtures.photo))
             (js "data:image/jpeg;base64") (js "/9j/4AAQ") eq_refl eq_refl eq_refl).
  - exact (proj1 (cleanBase64_spec (js "/9j/4AAQ")) eq_refl).
  - exact (proj2 (proj2 (cleanBase64_spec (js "data:,")))
             (js "data:") [] eq_refl eq_refl eq_refl).
Defined.

(** C9 as stated fails on a string with a second comma: the substring after
    the first comma of [a,b,c] is [b,c], and the payload is [b]; the
    substring after the first comma of [a,,c] is [,c], which is not empty,
    and the whole string is used. *)
Lemma cleanBase64_not_rest_after_first_comma :
  (js "a,b,c" = js "a" ++ comma :: js "b,c" /\
   includes comma (js "a") = false /\
   js "b,c" <> [] /\
   cleanBase64 (js "a,b,c") = js "b" /\
   cleanBase64 (js "a,b,c") <> js "b,c") /\
  (js "a,,c" = js "a" ++ comma :: js ",c" /\
   js ",c" <> [] /\
   cleanBase64 (js "a,,c") = js "a,,c" /\
   cleanBase64 (js "a,,c") <> js ",c").
Proof. repeat split; try reflexivity; discriminate. Qed.

End Base64Facts.

(** ** The visualization service *)
Module VisualizeFacts.
Import JS Types GeminiService.

Lemma getClient_with_key env key :
  narrow (API_KEY env) = Some key -> getClient env = Returned {| apiKey := key |}.
Proof. unfold getClient. now intros ->. Qed.

Lemma getClient_without_key env :
  narrow (API_KEY env) = None ->
  getClient env = Threw (Error (js "API Key is missing.")).
Proof. unfold getClient. now intros ->. Qed.

  (** One variation never rejects: it makes its request, and yields the
      image or [null]. *)
Lemma generateVariation_eq env key img v :
  generateVariation env {| apiKey := key |} (js "gemini-2.5-flash-image") img v =
  match remote env key (variation_request_of img v) with
  | Returned response =>
      ([Request key (variation_request_of img v)],
       Returned (first_inline_image (first_candidate_parts response)))
  | Threw e =>
      ([Request key (variation_request_of img v);
        ConsoleError [js "Failed to generate variation:"; v] e],
       Returned None)
  end.
Proof.
  unfold generateVariation, generateContent.
  cbv beta iota delta [bind lift emit try_catch ret throw apiKey].
  change (variation_request (js "gemini-2.5-flash-image") img (visualization_prompt v))
    with (variation_request_of img v).
  destruct (remote env key (variation_request_of img v)); reflexivity.
Qed.

Lemma requests_of_app l1 l2 :
  requests_of (l1 ++ l2) = requests_of l1 ++ requests_of l2.
Proof. apply flat_map_app. Qed.

Lemma promise_all_variations env key img vs :
  exists log,
    promise_all (map (generateVariation env {| apiKey := key |}
                        (js "gemini-2.5-flash-image") img) vs)
    = (log, Returned (map (variation_image env key img) vs))
    /\ requests_of log = map (variation_request_of img) vs.
Proof.
  induction vs as [|v vs [log [IH IHreq]]].
  - exists []. split; reflexivity.
  - cbn [map promise_all]. rewrite IH, generateVariation_eq.
    assert (Hv : variation_image env key img v =
                 match remote env key (variation_request_of img v) with
                 | Returned response => first_inline_image (first_candidate_parts response)
                 | Threw _ => None
                 end) by reflexivity.
    destruct (remote env key (variation_request_of img v)) as [response|e];
      rewrite Hv; eexists; (split; [reflexivity|]);
      rewrite requests_of_app, IHreq; reflexivity.
Qed.

Lemma filter_non_null_map {A B} (f : A -> option B) (l : list A) :
  filter_non_null (map f l) =
  flat_map (fun a => match f a with Some b => [b] | None => [] end) l.
Proof.
  induction l as [|a l IH]; [reflexivity|].
  cbn [map flat_map]. destruct (f a); cbn; now rewrite IH.
Qed.

  (** With a key, the call resolves to the images of the selected
      variations, in order, having made one request per selected
      variation. *)
Lemma generateDesignVisualizations_eq env key img cat count :
  narrow (API_KEY env) = Some key ->
  exists log,
    generateDesignVisualizations env img cat count
    = (log, Returned (flat_map (fun v => image_list (variation_image env key img v))
                        (slice0 (variations_for cat) count)))
    /\ requests_of log = map (variation_request_of img) (slice0 (variations_for cat) count).
Proof.
  intros Hkey. unfold generateDesignVisualizations.
  rewrite (getClient_with_key _ _ Hkey).
  destruct (promise_all_variations env key img (slice0 (variations_for cat) count))
    as [log [Hall Hreq]].
  exists log. split; [|exact Hreq].
  cbv beta iota delta [bind lift ret]. rewrite Hall.
  rewrite filter_non_null_map. cbn [app]. now rewrite app_nil_r.
Qed.

Lemma generateDesignVisualizations_no_key env img cat count :
  narrow (API_KEY env) = None ->
  generateDesignVisualizations env img cat count
  = ([], Threw (Error (js "API Key is missing."))).
Proof.
  intros Hkey. unfold generateDesignVisualizations.
  now rewrite (getClient_without_key _ Hkey).
Qed.

Lemma variations_length cat : length (variations_for cat) = 4.
Proof. destruct cat; reflexivity. Qed.

Lemma slice0_length {A} (arr : list A) count :
  Z.of_nat (length (slice0 arr count)) =
  if (count <? 0)%Z then Z.max (Z.of_nat (length arr) + count) 0
  else Z.min count (Z.of_nat (length arr)).
Proof.
  unfold slice0. rewrite length_firstn.
  destruct (count <? 0)%Z eqn:Hneg.
  - apply Z.ltb_lt in Hneg. lia.
  - apply Z.ltb_ge in Hneg. lia.
Qed.

Lemma slice0_zero {A} (arr : list A) : slice0 arr 0 = [].
Proof.
  unfold slice0. change (0 <? 0)%Z with false. cbv beta iota zeta.
  replace (Z.min 0 (Z.of_nat (length arr))) with 0%Z by lia. reflexivity.
Qed.

Lemma images_length_le (f : jsstring -> option jsstring) vs :
  length (flat_map (fun v => image_list (f v)) vs) <= length vs.
Proof.
  induction vs as [|v vs IH]; [apply le_n|].
  cbn [flat_map]. rewrite length_app. destruct (f v); cbn; lia.
Qed.

Lemma images_length_count (f : jsstring -> option jsstring) vs :
  length (flat_map (fun v => image_list (f v)) vs)
  + length (filter (fun v => match f v with Some _ => false | None => true end) vs)
  = length vs.
Proof.
  induction vs as [|v vs IH]; [reflexivity|].
  cbn [flat_map filter]. rewrite length_app. destruct (f v); cbn; lia.
Qed.

  (** Every request of the visualization is one for the image it was
      given. *)
Lemma generateDesignVisualizations_requests env img cat count :
  Forall (fun params => exists v, params = variation_request_of img v)
    (requests_of (fst (generateDesignVisualizations env img cat count))).
Proof.
  destruct (narrow (API_KEY env)) as [key|] eqn:Hkey.
  - destruct (generateDesignVisualizations_eq env key img cat count Hkey)
      as [log [-> Hreq]].
    cbn [fst]. rewrite Hreq. apply Forall_forall.
    intros params Hin. apply in_map_iff in Hin. destruct Hin as [v [<- _]]. now exists v.
  - rewrite (generateDesignVisualizations_no_key env img cat count Hkey). constructor.
Qed.

(** C3. With a key configured, [generateDesignVisualizations] never rejects:
    it makes one request per selected variation, in the order of the
    variation prompts, and resolves to the images of exactly those
    variations whose request succeeded with an image part, in that same
    order; a variation whose request fails or whose response has no image
    part contributes nothing. So the list is never longer than the list of
    selected variations, and with [count = 4] and exactly one of the four
    variations failing it has length 3. *)
Theorem visualizations_are_the_successes env key img cat count :
  narrow (API_KEY env) = Some key ->
  exists log result,
    generateDesignVisualizations env img cat count = (log, Returned result)
    /\ requests_of log = map (variation_request_of img) (slice0 (variations_for cat) count)
    /\ result = flat_map (fun v => image_list (variation_image env key img v))
                  (slice0 (variations_for cat) count)
    /\ length result <= length (slice0 (variations_for cat) count)
    /\ (count = 4%Z ->
        length (filter (fun v => match variation_image env key img v with
                                 | Some _ => false
                                 | None => true
                                 end) (variations_for cat)) = 1 ->
        length result = 3).
Proof.
  intros Hkey.
  destruct (generateDesignVisualizations_eq env key img cat count Hkey) as [log [Hrun Hreq]].
  exists log. eexists. split; [exact Hrun|]. split; [exact Hreq|].
  split; [reflexivity|]. split; [apply images_length_le|].
  intros -> Hfail.
  assert (Hall : slice0 (variations_for cat) 4 = variations_for cat)
    by (destruct cat; reflexivity).
  rewrite Hall.
  pose proof (images_length_count (variation_image env key img) (variations_for cat)) as Hcount.
  rewrite Hfail, variations_length in Hcount. lia.
Qed.

Lemma visualizations_are_the_successes_witness :
  let url i := js "data:image/png;base64,"
                 ++ visualization_prompt (nth i (variations_for LIGHTING) []) in
  (narrow (API_KEY (Fixtures.env_failing_on (nth 1 (variations_for LIGHTING) [])))
   = Some (js "key")
   /\ variation_image (Fixtures.env_failing_on (nth 1 (variations_for LIGHTING) []))
        (js "key") Fixtures.photo (nth 1 (variations_for LIGHTING) []) = None
   /\ exists log result,
        generateDesignVisualizations
          (Fixtures.env_failing_on (nth 1 (variations_for LIGHTING) []))
          Fixtures.photo LIGHTING 4 = (log, Returned result)
        /\ result = [url 0; url 2; url 3]
        /\ length result = 3
        /\ length (requests_of log) = 4)
  /\ (exists log result,
        generateDesignVisualizations
          (Fixtures.env_without_image_on (nth 3 (variations_for LIGHTING) []))
          Fixtures.photo LIGHTING 4 = (log, Returned result)
        /\ result = [url 0; url 1; url 2]).
Proof.
  cbv zeta. split.
  - split; [reflexivity|]. split; [reflexivity|].
    destruct (visualizations_are_the_successes
                (Fixtures.env_failing_on (nth 1 (variations_for LIGHTING) []))
                (js "key") Fixtures.photo LIGHTING 4 eq_refl)
      as [log [result [Hrun [Hreq [Hresult [_ Hthree]]]]]].
    exists log, result. split; [exact Hrun|]. split; [|split].
    + rewrite Hresult. reflexivity.
    + exact (Hthree eq_refl eq_refl).
    + rewrite Hreq. reflexivity.
  - destruct (visualizations_are_the_successes
                (Fixtures.env_without_image_on (nth 3 (variations_for LIGHTING) []))
                (js "key") Fixtures.photo LIGHTING 4 eq_refl)
      as [log [result [Hrun [_ [Hresult _]]]]].
    exists log, result. split; [exact Hrun|].
    rewrite Hresult. reflexivity.
Defined.

(** C10, as the code has it. The variations are the 4-entry table of the
    category cut by [slice(0, count)], so the call makes at most (and, with
    a key configured, exactly) [min(count, 4)] requests when [count >= 0]
    and [max(4 + count, 0)] requests when [count < 0], and the list it
    resolves to is no longer than that; in particular no more than 4 for
    any [count], and [count = 0] makes no request and yields the empty
    list. *)
Theorem visualization_requests_bound env img cat count :
  (Z.of_nat (length (requests_of (fst (generateDesignVisualizations env img cat count))))
   <= if count <? 0 then Z.max (4 + count) 0 else Z.min count 4)%Z
  /\ (forall result,
        snd (generateDesignVisualizations env img cat count) = Returned result ->
        Z.of_nat (length (requests_of (fst (generateDesignVisualizations env img cat count))))
        = (if count <? 0 then Z.max (4 + count) 0 else Z.min count 4)%Z
        /\ (Z.of_nat (length result)
            <= if count <? 0 then Z.max (4 + count) 0 else Z.min count 4)%Z
        /\ length result <= 4
        /\ (count = 0%Z -> result = []))
  /\ (count = 0%Z ->
      requests_of (fst (generateDesignVisualizations env img cat count)) = []).
Proof.
  pose proof (slice0_length (variations_for cat) count) as Hlen.
  rewrite variations_length in Hlen. change (Z.of_nat 4) with 4%Z in Hlen.
  assert (Hn : (0 <= (if count <? 0 then Z.max (4 + count) 0 else Z.min count 4) <= 4)%Z
               \/ (4 < count)%Z).
  { destruct (count <? 0)%Z eqn:Hneg; [left; lia|].
    apply Z.ltb_ge in Hneg. lia. }
  assert (Hn0 : (0 <= (if count <? 0 then Z.max (4 + count) 0 else Z.min count 4) <= 4)%Z).
  { destruct (count <? 0)%Z eqn:Hneg; [lia|]. apply Z.ltb_ge in Hneg. lia. }
  clear Hn.
  remember (if (count <? 0)%Z then Z.max (4 + count) 0 else Z.min count 4) as n eqn:En.
  destruct (narrow (API_KEY env)) as [key|] eqn:Hkey.
  - destruct (generateDesignVisualizations_eq env key img cat count Hkey)
      as [log [Hrun Hreq]].
    rewrite Hrun. cbn [fst snd]. rewrite Hreq, length_map.
    pose proof (images_length_le (variation_image env key img)
                  (slice0 (variations_for cat) count)) as Hle.
    split; [lia|]. split.
    + intros result [= <-]. split; [exact Hlen|]. split; [lia|]. split; [lia|].
      intros ->. now rewrite slice0_zero.
    + intros ->. now rewrite slice0_zero.
  - rewrite (generateDesignVisualizations_no_key env img cat count Hkey).
    cbn [fst snd requests_of flat_map length]. split; [lia|].
    split; [discriminate|reflexivity].
Qed.

(** C10 as stated fails for a negative count: [slice(0, -1)] keeps the first
    three prompts, so three requests are made and three images come back,
    which is neither none nor at most [min(-1, 4)]. *)
Lemma negative_count_still_requests :
  (-1 <= 0)%Z /\
  length (requests_of (fst (generateDesignVisualizations
            (Fixtures.env_answering (Returned (Fixtures.image_response (js "iVBORw0KGgo"))))
            Fixtures.photo LIGHTING (-1)))) = 3 /\
  snd (generateDesignVisualizations
         (Fixtures.env_answering (Returned (Fixtures.image_response (js "iVBORw0KGgo"))))
         Fixtures.photo LIGHTING (-1))
  = Returned [js "data:image/png;base64,iVBORw0KGgo";
              js "data:image/png;base64,iVBORw0KGgo";
              js "data:image/png;base64,iVBORw0KGgo"] /\
  ~ (3 <= Z.min (-1) 4)%Z.
Proof.
  split; [lia|]. split; [vm_compute; reflexivity|].
  split; [vm_compute; reflexivity|lia].
Qed.

End VisualizeFacts.

(** ** The analysis service *)
Module AnalyzeFacts.
Import JS Types GeminiService.

  (** What [analyzeRoomDesign] does once a key is configured, by the outcome
      of its request, of [JSON.parse] and of the read of [advice]. *)
Lemma analyzeRoomDesign_eq env key img cat :
  narrow (API_KEY env) = Some key ->
  analyzeRoomDesign env img cat =
  match remote env key (analysis_request_of img cat) with
  | Threw e =>
      ([Request key (analysis_request_of img cat);
        ConsoleError [js "Error analyzing room:"] e], Threw e)
  | Returned response =>
      match Json.parse (or_else (text response) (js "{}")) with
      | None =>
          ([Request key (analysis_request_of img cat);
            ConsoleError [js "Error analyzing room:"] SyntaxError], Threw SyntaxError)
      | Some json =>
          match Json.get_property json (js "advice") with
          | Threw e =>
              ([Request key (analysis_request_of img cat);
                ConsoleError [js "Error analyzing room:"] e], Threw e)
          | Returned advice =>
              ([Request key (analysis_request_of img cat)],
               Returned (advice_or_empty advice))
          end
      end
  end.
Proof.
  intros Hkey. unfold analyzeRoomDesign, getClient. rewrite Hkey.
  unfold generateContent, Json.JSON_parse.
  cbv beta iota zeta delta [bind lift emit try_catch ret throw apiKey].
  change (analysis_request (js "gemini-3-pro-preview") analysis_systemInstruction
            (analysis_prompt cat) img)
    with (analysis_request_of img cat).
  destruct (remote env key (analysis_request_of img cat)) as [response|e];
    [|reflexivity].
  destruct (Json.parse (or_else (text response) (js "{}"))) as [json|];
    [|reflexivity].
  destruct (Json.get_property json (js "advice")); reflexivity.
Qed.

Lemma analyzeRoomDesign_no_key env img cat :
  narrow (API_KEY env) = None ->
  analyzeRoomDesign env img cat = ([], Threw (Error (js "API Key is missing."))).
Proof.
  intros Hkey. unfold analyzeRoomDesign, getClient. now rewrite Hkey.
Qed.

  (** The analysis makes at most one request, for the image it was given. *)
Lemma analyzeRoomDesign_requests env img cat :
  incl (requests_of (fst (analyzeRoomDesign env img cat))) [analysis_request_of img cat].
Proof.
  destruct (narrow (API_KEY env)) as [key|] eqn:Hkey.
  - rewrite (analyzeRoomDesign_eq env key img cat Hkey).
    destruct (remote env key (analysis_request_of img cat)) as [response|e];
      [|apply incl_refl].
    destruct (Json.parse (or_else (text response) (js "{}"))) as [json|];
      [|apply incl_refl].
    destruct (Json.get_property json (js "advice")); apply incl_refl.
  - rewrite (analyzeRoomDesign_no_key env img cat Hkey). apply incl_nil_l.
Qed.

(** C1, as the code has it. When the remote call succeeds:
    a response text that is not well-formed JSON makes [JSON.parse] throw,
    and [analyzeRoomDesign] logs the [SyntaxError] and rethrows it;
    an absent or empty response text, and a text that parses to an object
    (or to an array, a number, a string or a boolean) without an [advice]
    member or with a falsy one, yield the empty list;
    a text that parses to [null] makes the read of [advice] throw a
    [TypeError], which is rethrown as well. *)
Theorem analyze_tolerance env key img cat response :
  narrow (API_KEY env) = Some key ->
  remote env key (analysis_request_of img cat) = Returned response ->
  (Json.parse (or_else (text response) (js "{}")) = None ->
   snd (analyzeRoomDesign env img cat) = Threw SyntaxError)
  /\ (truthy (text response) = false ->
      snd (analyzeRoomDesign env img cat) = Returned (Json.JArray []))
  /\ (forall json,
        Json.parse (or_else (text response) (js "{}")) = Some json ->
        json <> Json.JNull ->
        match Json.get_property json (js "advice") with
        | Returned (Some advice) => Json.truthy_value advice = false
        | _ => True
        end ->
        snd (analyzeRoomDesign env img cat) = Returned (Json.JArray []))
  /\ (forall members,
        Json.parse (or_else (text response) (js "{}")) = Some (Json.JObject members) ->
        Json.get_member (js "advice") members = None ->
        snd (analyzeRoomDesign env img cat) = Returned (Json.JArray []))
  /\ (Json.parse (or_else (text response) (js "{}")) = Some Json.JNull ->
      snd (analyzeRoomDesign env img cat) = Threw TypeError).
Proof.
  intros Hkey Hremote.
  rewrite (analyzeRoomDesign_eq env key img cat Hkey), Hremote.
  split; [|split; [|split; [|split]]].
  - intros ->. reflexivity.
  - intros Hfalsy.
    assert (Htext : or_else (text response) (js "{}") = js "{}").
    { unfold or_else, narrow. now rewrite Hfalsy. }
    rewrite Htext. reflexivity.
  - intros json -> Hnotnull Hfalsy.
    destruct json as [|b|neg m e|s|items|members];
      cbn [Json.get_property snd] in Hfalsy |- *;
      try reflexivity; [congruence|].
    destruct (Json.get_member (js "advice") members) as [advice|]; [|reflexivity].
    unfold advice_or_empty. now rewrite Hfalsy.
  - intros members -> Hmissing. cbn [Json.get_property snd]. now rewrite Hmissing.
  - intros ->. reflexivity.
Qed.

Lemma analyze_tolerance_witness :
  snd (analyzeRoomDesign
         (Fixtures.env_answering (Returned (Fixtures.text_response
            (Fixtures.json_text "{'suggestions': []}"))))
         Fixtures.photo LIGHTING)
  = Returned (Json.JArray [])
  /\ snd (analyzeRoomDesign
            (Fixtures.env_answering (Returned (Fixtures.text_response
               (Fixtures.json_text "{'advice': ["))))
            Fixtures.photo LIGHTING)
     = Threw SyntaxError.
Proof.
  split.
  - exact (proj1 (proj2 (proj2 (proj2
      (analyze_tolerance
         (Fixtures.env_answering (Returned (Fixtures.text_response
            (Fixtures.json_text "{'suggestions': []}"))))
         (js "key") Fixtures.photo LIGHTING _ eq_refl eq_refl))))
      [(js "suggestions", Json.JArray [])] eq_refl eq_refl).
  - exact (proj1
      (analyze_tolerance
         (Fixtures.env_answering (Returned (Fixtures.text_response
            (Fixtures.json_text "{'advice': ["))))
         (js "key") Fixtures.photo LIGHTING _ eq_refl eq_refl) eq_refl).
Defined.

(** C1 as stated fails on malformed JSON: the remote call succeeds with a
    text cut off in the middle, [JSON.parse] throws, and the call rejects
    with the [SyntaxError] instead of resolving to the empty list. *)
Lemma malformed_json_is_rethrown :
  remote (Fixtures.env_answering (Returned (Fixtures.text_response
            (Fixtures.json_text "{'advice': [{'title': 'Layer the li"))))
    (js "key") (analysis_request_of Fixtures.photo LIGHTING)
  = Returned (Fixtures.text_response
                (Fixtures.json_text "{'advice': [{'title': 'Layer the li"))
  /\ Json.parse (Fixtures.json_text "{'advice': [{'title': 'Layer the li") = None
  /\ analyzeRoomDesign
       (Fixtures.env_answering (Returned (Fixtures.text_response
          (Fixtures.json_text "{'advice': [{'title': 'Layer the li"))))
       Fixtures.photo LIGHTING
     = ([Request (js "key") (analysis_request_of Fixtures.photo LIGHTING);
         ConsoleError [js "Error analyzing room:"] SyntaxError],
        Threw SyntaxError)
  /\ snd (analyzeRoomDesign
            (Fixtures.env_answering (Returned (Fixtures.text_response
               (Fixtures.json_text "{'advice': [{'title': 'Layer the li"))))
            Fixtures.photo LIGHTING)
     <> Returned (Json.JArray []).
Proof.
  split; [reflexivity|]. split; [vm_compute; reflexivity|].
  split; [vm_compute; reflexivity|]. vm_compute. discriminate.
Qed.

(** C8, as the code has it. When the remote call succeeds with a text that
    parses to an object whose [advice] member is an array of 4 items,
    [analyzeRoomDesign] resolves to exactly that array: 4 items, in the
    order of the response, each as the response has it. Nothing is checked
    about the items, so they have a non-empty title, description and
    principleSource exactly when the items of the response do. *)
Theorem analyze_returns_the_advice_array env key img cat response members items :
  narrow (API_KEY env) = Some key ->
  remote env key (analysis_request_of img cat) = Returned response ->
  Json.parse (or_else (text response) (js "{}")) = Some (Json.JObject members) ->
  Json.get_member (js "advice") members = Some (Json.JArray items) ->
  length items = 4 ->
  exists result,
    snd (analyzeRoomDesign env img cat) = Returned (Json.JArray result)
    /\ length result = 4
    /\ result = items
    /\ forallb complete_advice result = forallb complete_advice items.
Proof.
  intros Hkey Hremote Hparse Hadvice Hlen.
  exists items. split; [|auto].
  rewrite (analyzeRoomDesign_eq env key img cat Hkey), Hremote, Hparse.
  cbn [Json.get_property snd]. now rewrite Hadvice.
Qed.

Lemma analyze_returns_the_advice_array_witness :
  exists result,
    snd (analyzeRoomDesign
           (Fixtures.env_answering (Returned (Fixtures.text_response Fixtures.advice_text)))
           Fixtures.photo LIGHTING)
    = Returned (Json.JArray result)
    /\ length result = 4
    /\ forallb complete_advice result = true.
Proof.
  destruct (analyze_returns_the_advice_array
              (Fixtures.env_answering (Returned (Fixtures.text_response Fixtures.advice_text)))
              (js "key") Fixtures.photo LIGHTING
              (Fixtures.text_response Fixtures.advice_text)
              [(js "advice", Json.JArray (Fixtures.advice_items Fixtures.advice_text))]
              (Fixtures.advice_items Fixtures.advice_text)
              eq_refl eq_refl eq_refl eq_refl eq_refl)
    as [result [Hrun [Hlen [Hitems Hcomplete]]]].
  exists result. split; [exact Hrun|]. split; [exact Hlen|].
  rewrite Hcomplete. reflexivity.
Defined.

(** C8 as stated fails: the remote call succeeds with valid JSON whose
    [advice] array has exactly 4 items, the last one with empty strings;
    the call resolves to those 4 items, and the last has an empty title,
    description and principleSource. *)
Lemma advice_items_are_not_checked :
  length (Fixtures.advice_items Fixtures.hollow_advice_text) = 4
  /\ exists result,
       snd (analyzeRoomDesign
              (Fixtures.env_answering
                 (Returned (Fixtures.text_response Fixtures.hollow_advice_text)))
              Fixtures.photo LIGHTING)
       = Returned (Json.JArray result)
       /\ length result = 4
       /\ forallb complete_advice result = false
       /\ string_member (js "title") (nth 3 result Json.JNull) = Some [].
Proof.
  split; [vm_compute; reflexivity|].
  exists (Fixtures.advice_items Fixtures.hollow_advice_text).
  repeat split; vm_compute; reflexivity.
Qed.

End AnalyzeFacts.

(** ** The workflow controller *)
Module AppFacts.
Import JS Types App.

Lemma rendered_has_original st :
  dashboard_rendered st = true ->
  exists original, narrow (originalImage st) = Some original
                   /\ originalImage st = Some original.
Proof.
  unfold dashboard_rendered, narrow. intros H. rewrite H.
  destruct (originalImage st) as [original|]; [|discriminate H].
  exists original. split; reflexivity.
Qed.

  (** With an image uploaded there is an active image; it is the one
      [handleAnalysis] computes as [imageToAnalyze]. *)
Lemma rendered_has_active st :
  dashboard_rendered st = true -> exists img, activeImage st = Some img.
Proof.
  intros H. destruct (rendered_has_original st H) as [original [_ Horiginal]].
  unfold activeImage.
  destruct (isCleanMode st); [|eauto].
  destruct (narrow (cleanImage st)); eauto.
Qed.

  (** The whole run of [handleAnalysis], by the outcomes of the two service
      calls. *)
Lemma handleAnalysis_eq svc st img :
  dashboard_rendered st = true ->
  activeImage st = Some img ->
  handleAnalysis svc st =
  (match analyzeRoomDesign svc img (selectedCategory st) with
   | (alog, Threw _) =>
       [Set_ (setLoadingState analyzing); Set_ (setAdvice (Json.JArray []));
        Set_ (setVisualizations []); Set_ (setError None);
        Await (AnalyzeRoomDesign img (selectedCategory st)) alog;
        Set_ (setError (Some analysis_failed_message));
        Set_ (setLoadingState idle)]
   | (alog, Returned adviceResult) =>
       [Set_ (setLoadingState analyzing); Set_ (setAdvice (Json.JArray []));
        Set_ (setVisualizations []); Set_ (setError None);
        Await (AnalyzeRoomDesign img (selectedCategory st)) alog;
        Set_ (setAdvice adviceResult);
        Set_ (setLoadingState visualizing)] ++
       match generateDesignVisualizations svc img (selectedCategory st) 4 with
       | (vlog, Returned visualResult) =>
           [Await (GenerateDesignVisualizations img (selectedCategory st) 4) vlog;
            Set_ (setVisualizations visualResult);
            Set_ (setLoadingState idle)]
       | (vlog, Threw _) =>
           [Await (GenerateDesignVisualizations img (selectedCategory st) 4) vlog;
            Set_ (setError (Some analysis_failed_message));
            Set_ (setLoadingState idle)]
       end
   end, Returned tt).
Proof.
  intros Hrendered Hactive.
  destruct (rendered_has_original st Hrendered) as [original [Hnarrow Horiginal]].
  unfold handleAnalysis. rewrite Hnarrow.
  assert (Himg : match isCleanMode st, narrow (cleanImage st) with
                 | true, Some cleanImage => cleanImage
                 | _, _ => original
                 end = img).
  { unfold activeImage in Hactive. rewrite Horiginal in Hactive.
    destruct (isCleanMode st); [destruct (narrow (cleanImage st))|]; congruence. }
  cbv zeta. rewrite Himg.
  unfold await, set, analysis_failed_message.
  cbv beta iota delta [bind emit try_catch try_catch_finally ret].
  destruct (analyzeRoomDesign svc img (selectedCategory st)) as [alog [adviceResult|e]];
    cbn [fst snd]; [|reflexivity].
  destruct (generateDesignVisualizations svc img (selectedCategory st) 4)
    as [vlog [visualResult|e]]; reflexivity.
Qed.

(** C2. A Generate run on an uploaded image always completes, and when a
    stage fails it leaves the one generic message in [error] and
    [loadingState] at idle. If the analysis fails, both [advice] and
    [visualizations] are empty afterwards (whatever they held before) and no
    visualization was requested; if the analysis succeeds and the
    visualization call fails, [advice] holds the advice of this run and
    [visualizations] is empty. *)
Theorem generate_failure_keeps_completed_stage svc st :
  dashboard_rendered st = true ->
  exists img,
    activeImage st = Some img
    /\ snd (handleAnalysis svc st) = Returned tt
    /\ (forall e,
          snd (analyzeRoomDesign svc img (selectedCategory st)) = Threw e ->
          error (run st (fst (handleAnalysis svc st))) = Some analysis_failed_message
          /\ loadingState (run st (fst (handleAnalysis svc st))) = idle
          /\ advice (run st (fst (handleAnalysis svc st))) = Json.JArray []
          /\ visualizations (run st (fst (handleAnalysis svc st))) = []
          /\ service_calls (fst (handleAnalysis svc st))
             = [AnalyzeRoomDesign img (selectedCategory st)])
    /\ (forall adviceResult e,
          snd (analyzeRoomDesign svc img (selectedCategory st)) = Returned adviceResult ->
          snd (generateDesignVisualizations svc img (selectedCategory st) 4) = Threw e ->
          error (run st (fst (handleAnalysis svc st))) = Some analysis_failed_message
          /\ loadingState (run st (fst (handleAnalysis svc st))) = idle
          /\ advice (run st (fst (handleAnalysis svc st))) = adviceResult
          /\ visualizations (run st (fst (handleAnalysis svc st))) = []).
Proof.
  intros Hrendered.
  destruct (rendered_has_active st Hrendered) as [img Hactive].
  exists img. split; [exact Hactive|].
  rewrite (handleAnalysis_eq svc st img Hrendered Hactive).
  split; [reflexivity|].
  destruct (analyzeRoomDesign svc img (selectedCategory st)) as [alog [a|ea]];
    cbn [fst snd].
  - split; [discriminate|].
    intros adviceResult e [= <-] Hvis.
    destruct (generateDesignVisualizations svc img (selectedCategory st) 4)
      as [vlog [v|ev]]; cbn [snd] in Hvis; [discriminate Hvis|].
    repeat split.
  - split; [|discriminate].
    intros e _. repeat split.
Qed.

Lemma generate_failure_keeps_completed_stage_witness :
  (exists img,
     activeImage Fixtures.uploaded = Some img
     /\ error (run Fixtures.uploaded (fst (handleAnalysis Fixtures.failing_service Fixtures.uploaded)))
        = Some analysis_failed_message
     /\ advice (run Fixtures.uploaded (fst (handleAnalysis Fixtures.failing_service Fixtures.uploaded)))
        = Json.JArray [])
  /\ (exists img,
        activeImage Fixtures.uploaded = Some img
        /\ error (run Fixtures.uploaded
                    (fst (handleAnalysis Fixtures.service_losing_key Fixtures.uploaded)))
           = Some analysis_failed_message
        /\ advice (run Fixtures.uploaded
                     (fst (handleAnalysis Fixtures.service_losing_key Fixtures.uploaded)))
           = Json.JArray (Fixtures.advice_items Fixtures.advice_text)
        /\ visualizations (run Fixtures.uploaded
                     (fst (handleAnalysis Fixtures.service_losing_key Fixtures.uploaded)))
           = []).
Proof.
  split.
  - destruct (generate_failure_keeps_completed_stage
                Fixtures.failing_service Fixtures.uploaded eq_refl)
      as [img [Hactive [_ [Hfail _]]]].
    exists img. split; [exact Hactive|].
    injection Hactive as <-.
    destruct (Hfail (RemoteError (js "503")) eq_refl) as [Herror [_ [Hadvice _]]].
    split; assumption.
  - destruct (generate_failure_keeps_completed_stage
                Fixtures.service_losing_key Fixtures.uploaded eq_refl)
      as [img [Hactive [_ [_ Hfail]]]].
    exists img. split; [exact Hactive|].
    injection Hactive as <-.
    destruct (Hfail (Json.JArray (Fixtures.advice_items Fixtures.advice_text))
                (Error (js "API Key is missing.")) eq_refl eq_refl)
      as [Herror [_ [Hadvice Hvis]]].
    repeat split; assumption.
Defined.

Lemma flat_map_interleave {B} (f : event -> list B) picks a b :
  (forall ev, In ev b -> f ev = []) ->
  flat_map f (Interleave.interleave picks a b) = flat_map f a.
Proof.
  revert a b. induction picks as [|pick picks IH]; intros a b Hb.
  - cbn [Interleave.interleave]. rewrite flat_map_app.
    assert (Hnone : flat_map f b = []).
    { clear -Hb. induction b as [|ev b IHb]; [reflexivity|].
      cbn [flat_map]. rewrite (Hb ev (or_introl eq_refl)).
      apply IHb. intros ev' Hin. apply Hb. now right. }
    rewrite Hnone. apply app_nil_r.
  - destruct pick; cbn [Interleave.interleave].
    + destruct a as [|ev a].
      * clear -Hb. induction b as [|ev b IHb]; [reflexivity|].
        cbn [flat_map]. rewrite (Hb ev (or_introl eq_refl)).
        apply IHb. intros ev' Hin. apply Hb. now right.
      * cbn [flat_map]. now rewrite IH.
    + destruct b as [|ev b]; [reflexivity|].
      cbn [flat_map]. rewrite (Hb ev (or_introl eq_refl)). cbn [app].
      apply IH. intros ev' Hin. apply Hb. now right.
Qed.




  (** With the service of the repository run with one key throughout, the
      visualization stage cannot fail once the analysis has succeeded: each
      variation catches its own failure. *)
Lemma visualization_resolves_after_analysis env img cat adviceResult :
  snd (GeminiService.analyzeRoomDesign env img cat) = Returned adviceResult ->
  exists visualResult,
    snd (GeminiService.generateDesignVisualizations env img cat 4) = Returned visualResult.
Proof.
  intros Hanalysis.
  destruct (narrow (GeminiService.API_KEY env)) as [key|] eqn:Hkey.
  - destruct (VisualizeFacts.generateDesignVisualizations_eq env key img cat 4 Hkey)
      as [log [-> _]].
    eexists. reflexivity.
  - rewrite (AnalyzeFacts.analyzeRoomDesign_no_key env img cat Hkey) in Hanalysis.
    discriminate Hanalysis.
Qed.

  (** With the service of the repository, every request a Generate run
      sends to the remote model carries the active image, stripped of its
      data URL prefix, as its first part. *)
Lemma generate_requests_carry_the_active_image env st :
  dashboard_rendered st = true ->
  exists img,
    activeImage st = Some img
    /\ Forall (fun params =>
                 hd_error (GeminiService.contents params)
                 = Some (GeminiService.inline_part (js "image/jpeg")
                           (GeminiService.cleanBase64 img)))
         (remote_requests (fst (handleAnalysis (geminiService env) st))).
Proof.
  intros Hrendered.
  destruct (rendered_has_active st Hrendered) as [img Hactive].
  exists img. split; [exact Hactive|].
  rewrite (handleAnalysis_eq (geminiService env) st img Hrendered Hactive).
  cbn [geminiService analyzeRoomDesign generateDesignVisualizations].
  pose proof (AnalyzeFacts.analyzeRoomDesign_requests env img (selectedCategory st)) as Han.
  pose proof (VisualizeFacts.generateDesignVisualizations_requests env img
                (selectedCategory st) 4) as Hvis.
  assert (Hanalysis : Forall (fun params =>
            hd_error (GeminiService.contents params)
            = Some (GeminiService.inline_part (js "image/jpeg")
                      (GeminiService.cleanBase64 img)))
            (GeminiService.requests_of
               (fst (GeminiService.analyzeRoomDesign env img (selectedCategory st))))).
  { apply Forall_forall. intros params Hin. apply Han in Hin.
    destruct Hin as [<-|[]]. reflexivity. }
  assert (Hvisual : Forall (fun params =>
            hd_error (GeminiService.contents params)
            = Some (GeminiService.inline_part (js "image/jpeg")
                      (GeminiService.cleanBase64 img)))
            (GeminiService.requests_of
               (fst (GeminiService.generateDesignVisualizations env img
                       (selectedCategory st) 4)))).
  { eapply Forall_impl; [|exact Hvis]. intros params [v ->]. reflexivity. }
  destruct (GeminiService.analyzeRoomDesign env img (selectedCategory st))
    as [alog [a|ea]]; cbn [fst snd] in *.
  - destruct (GeminiService.generateDesignVisualizations env img (selectedCategory st) 4)
      as [vlog [v|ev]]; cbn [fst snd] in *;
      unfold remote_requests; cbn [flat_map app];
      rewrite ?app_nil_r; apply Forall_app; split; assumption.
  - unfold remote_requests. cbn [flat_map app]. now rewrite app_nil_r.
Qed.

  (** Every image the clean operation of the service yields is a non-empty
      string, so a cleaned image that is held is truthy. *)
Lemma cleaned_image_is_not_empty env img cleaned :
  snd (GeminiService.cleanRoomImage env img) = Returned cleaned -> cleaned <> [].
Proof.
  unfold GeminiService.cleanRoomImage, GeminiService.getClient.
  destruct (narrow (GeminiService.API_KEY env)) as [key|]; [|discriminate].
  unfold GeminiService.generateContent.
  cbv beta iota zeta delta [bind lift emit try_catch ret throw GeminiService.apiKey].
  destruct (GeminiService.remote env key _) as [response|e]; [|discriminate].
  destruct (GeminiService.first_candidate_parts response) as [|part ps];
    [discriminate|].
  revert part. induction ps as [|p ps IH]; intros part; cbn [GeminiService.first_inline_image].
  - destruct (GeminiService.inlineData part); cbn; [|discriminate].
    intros [= <-]. discriminate.
  - destruct (GeminiService.inlineData part); cbn.
    + intros [= <-]. discriminate.
    + apply IH.
Qed.

Lemma awaited_interleave picks a b :
  (forall ev, In ev b -> Interleave.is_await ev = false) ->
  Interleave.awaited (Interleave.interleave picks a b) = Interleave.awaited a.
Proof.
  intros Hb.
  assert (Hflat : forall l, Interleave.awaited l
            = flat_map (fun ev => if Interleave.is_await ev then [ev] else []) l).
  { induction l as [|ev l IH]; [reflexivity|].
    unfold Interleave.awaited in *. cbn [filter flat_map].
    destruct (Interleave.is_await ev); cbn [app]; now rewrite IH. }
  rewrite !Hflat. apply flat_map_interleave.
  intros ev Hin. now rewrite (Hb ev Hin).
Qed.

(** C7, as the code has it. In every state the active image is the cleaned
    image when clean mode is on and a cleaned image is held (a non-empty
    string, as every image the clean operation yields is), and the original
    image otherwise. A Generate run on an uploaded image takes the image
    that is active when it starts and passes exactly that image, with the
    category selected then, to the analysis and, when the analysis
    succeeds, to the visualization (with a count of 4): these are the calls
    it awaits, their results are what it stores, and with the service of
    the repository every request they send carries that image. The image is
    fixed at the start: what the user does while the run awaits (the
    checkbox is not disabled then) changes the active image on screen, not
    the calls of the run. *)
Theorem generate_passes_the_image_active_at_the_start svc st :
  activeImage st
  = (if isCleanMode st && truthy (cleanImage st) then cleanImage st else originalImage st)
  /\ (dashboard_rendered st = true ->
      exists img,
        activeImage st = Some img
        /\ Interleave.awaited (fst (handleAnalysis svc st))
           = Await (AnalyzeRoomDesign img (selectedCategory st))
               (fst (analyzeRoomDesign svc img (selectedCategory st)))
             :: match snd (analyzeRoomDesign svc img (selectedCategory st)) with
                | Returned _ =>
                    [Await (GenerateDesignVisualizations img (selectedCategory st) 4)
                       (fst (generateDesignVisualizations svc img (selectedCategory st) 4))]
                | Threw _ => []
                end
        /\ (forall adviceResult,
              snd (analyzeRoomDesign svc img (selectedCategory st)) = Returned adviceResult ->
              advice (run st (fst (handleAnalysis svc st))) = adviceResult
              /\ forall visualResult,
                   snd (generateDesignVisualizations svc img (selectedCategory st) 4)
                   = Returned visualResult ->
                   visualizations (run st (fst (handleAnalysis svc st))) = visualResult)
        /\ (forall env,
              svc = geminiService env ->
              Forall (fun params =>
                        hd_error (GeminiService.contents params)
                        = Some (GeminiService.inline_part (js "image/jpeg")
                                  (GeminiService.cleanBase64 img)))
                (remote_requests (fst (handleAnalysis svc st))))
        /\ (forall picks others,
              (forall ev, In ev others -> Interleave.is_await ev = false) ->
              Interleave.awaited
                (Interleave.interleave picks (fst (handleAnalysis svc st)) others)
              = Interleave.awaited (fst (handleAnalysis svc st)))).
Proof.
  split.
  - unfold activeImage, narrow.
    destruct (isCleanMode st); [|reflexivity].
    destruct (truthy (cleanImage st)) eqn:Htruthy; cbn [andb]; [|reflexivity].
    destruct (cleanImage st); [reflexivity|discriminate Htruthy].
  - intros Hrendered.
    destruct (rendered_has_active st Hrendered) as [img Hactive].
    exists img. split; [exact Hactive|].
    split; [|split; [|split]].
    + rewrite (handleAnalysis_eq svc st img Hrendered Hactive).
      destruct (analyzeRoomDesign svc img (selectedCategory st)) as [alog [a|ea]];
        cbn [fst snd]; [|reflexivity].
      destruct (generateDesignVisualizations svc img (selectedCategory st) 4)
        as [vlog [v|ev]]; reflexivity.
    + rewrite (handleAnalysis_eq svc st img Hrendered Hactive).
      intros adviceResult Hanalysis.
      destruct (analyzeRoomDesign svc img (selectedCategory st)) as [alog [a|ea]];
        cbn [snd] in Hanalysis; [|discriminate Hanalysis].
      injection Hanalysis as ->.
      destruct (generateDesignVisualizations svc img (selectedCategory st) 4)
        as [vlog [v|ev]]; (split; [reflexivity|]); intros visualResult Hvisual;
        cbn [snd] in Hvisual; [|discriminate Hvisual].
      injection Hvisual as ->. reflexivity.
    + intros env ->.
      destruct (generate_requests_carry_the_active_image env st Hrendered)
        as [img' [Hactive' Hall]].
      assert (img' = img) by congruence. subst img'. exact Hall.
    + intros picks others Hothers. now apply awaited_interleave.
Qed.

Lemma generate_passes_the_image_active_at_the_start_witness :
  activeImage Fixtures.uploaded_clean = Some (js "data:image/png;base64,Q0xFQU4")
  /\ Interleave.awaited (fst (handleAnalysis Fixtures.advising_service Fixtures.uploaded_clean))
     = [Await (AnalyzeRoomDesign (js "data:image/png;base64,Q0xFQU4") LIGHTING)
          (fst (analyzeRoomDesign Fixtures.advising_service
                  (js "data:image/png;base64,Q0xFQU4") LIGHTING));
        Await (GenerateDesignVisualizations (js "data:image/png;base64,Q0xFQU4") LIGHTING 4)
          (fst (generateDesignVisualizations Fixtures.advising_service
                  (js "data:image/png;base64,Q0xFQU4") LIGHTING 4))].
Proof.
  destruct (proj2 (generate_passes_the_image_active_at_the_start
                     Fixtures.advising_service Fixtures.uploaded_clean) eq_refl)
    as [img [Hactive [Hcalls _]]].
  split; [reflexivity|].
  injection Hactive as <-. exact Hcalls.
Defined.

(** C7 as stated fails when the box is unchecked during the run: started in
    clean mode, the run analyses the cleaned image; with the analysis
    awaited the checkbox is available, unchecking it makes the original the
    active image, and when the visualization is then called the image it
    gets is still the cleaned one, not the image active at that point. *)
Lemma uncheck_during_generate_moves_the_active_image :
  activeImage Fixtures.uploaded_clean = Some (js "data:image/png;base64,Q0xFQU4")
  /\ Session.available
       (Outcome.state_before Fixtures.uploaded_clean
          (fst (handleAnalysis Fixtures.advising_service Fixtures.uploaded_clean)) 4)
       (Session.ToggleClean
          (Fixtures.env_answering (Returned (Fixtures.text_response Fixtures.advice_text)))
          false) = true
  /\ Interleave.interleave [true; true; true; true; true; false]
       (fst (handleAnalysis Fixtures.advising_service Fixtures.uploaded_clean))
       (fst (handleCleanCheck Fixtures.advising_service
               (Outcome.state_before Fixtures.uploaded_clean
                  (fst (handleAnalysis Fixtures.advising_service Fixtures.uploaded_clean)) 4)
               false))
     = firstn 5 (fst (handleAnalysis Fixtures.advising_service Fixtures.uploaded_clean))
       ++ [Set_ (setIsCleanMode false)]
       ++ skipn 5 (fst (handleAnalysis Fixtures.advising_service Fixtures.uploaded_clean))
  /\ nth_error
       (Interleave.interleave [true; true; true; true; true; false]
          (fst (handleAnalysis Fixtures.advising_service Fixtures.uploaded_clean))
          (fst (handleCleanCheck Fixtures.advising_service
                  (Outcome.state_before Fixtures.uploaded_clean
                     (fst (handleAnalysis Fixtures.advising_service
                             Fixtures.uploaded_clean)) 4)
                  false))) 8
     = Some (Await (GenerateDesignVisualizations (js "data:image/png;base64,Q0xFQU4")
                      LIGHTING 4)
               (fst (generateDesignVisualizations Fixtures.advising_service
                       (js "data:image/png;base64,Q0xFQU4") LIGHTING 4)))
  /\ activeImage
       (Outcome.state_before Fixtures.uploaded_clean
          (Interleave.interleave [true; true; true; true; true; false]
             (fst (handleAnalysis Fixtures.advising_service Fixtures.uploaded_clean))
             (fst (handleCleanCheck Fixtures.advising_service
                     (Outcome.state_before Fixtures.uploaded_clean
                        (fst (handleAnalysis Fixtures.advising_service
                                Fixtures.uploaded_clean)) 4)
                     false))) 8)
     = Some Fixtures.photo
  /\ Fixtures.photo <> js "data:image/png;base64,Q0xFQU4".
Proof.
  split; [reflexivity|]. split; [reflexivity|]. split; [vm_compute; reflexivity|].
  split; [vm_compute; reflexivity|]. split; [vm_compute; reflexivity|].
  vm_compute. discriminate.
Qed.

(** C6. With an image uploaded and a cleaned image in the cache, unchecking
    the box does one thing, at once and without any service call: it turns
    clean mode off. The cached cleaned image stays, and the active image is
    the original. Checking the box again does one thing as well, again
    without any service call and without touching [loadingState]: it turns
    clean mode on, and the active image is the cached cleaned image. *)
Theorem clean_mode_toggle_is_free svc st cleaned :
  dashboard_rendered st = true ->
  cleanImage st = Some cleaned ->
  cleaned <> [] ->
  handleCleanCheck svc st false = ([Set_ (setIsCleanMode false)], Returned tt)
  /\ service_calls (fst (handleCleanCheck svc st false)) = []
  /\ cleanImage (run st (fst (handleCleanCheck svc st false))) = Some cleaned
  /\ originalImage (run st (fst (handleCleanCheck svc st false))) = originalImage st
  /\ loadingState (run st (fst (handleCleanCheck svc st false))) = loadingState st
  /\ activeImage (run st (fst (handleCleanCheck svc st false))) = originalImage st
  /\ handleCleanCheck svc (run st (fst (handleCleanCheck svc st false))) true
     = ([Set_ (setIsCleanMode true)], Returned tt)
  /\ service_calls
       (fst (handleCleanCheck svc (run st (fst (handleCleanCheck svc st false))) true)) = []
  /\ activeImage
       (run (run st (fst (handleCleanCheck svc st false)))
          (fst (handleCleanCheck svc (run st (fst (handleCleanCheck svc st false))) true)))
     = Some cleaned
  /\ cleanImage
       (run (run st (fst (handleCleanCheck svc st false)))
          (fst (handleCleanCheck svc (run st (fst (handleCleanCheck svc st false))) true)))
     = Some cleaned.
Proof.
  intros Hrendered Hclean Hnonempty.
  destruct (rendered_has_original st Hrendered) as [original [Hnarrow Horiginal]].
  assert (Htruthy : truthy (Some cleaned) = true).
  { destruct cleaned; [congruence|reflexivity]. }
  assert (Hoff : handleCleanCheck svc st false = ([Set_ (setIsCleanMode false)], Returned tt)).
  { unfold handleCleanCheck. rewrite Hnarrow. reflexivity. }
  rewrite Hoff. cbn [fst run fold_left apply_event apply_setter].
  assert (Hon : handleCleanCheck svc
                  {| originalImage := originalImage st; cleanImage := cleanImage st;
                     isCleanMode := false; loadingState := loadingState st;
                     selectedCategory := selectedCategory st; advice := advice st;
                     visualizations := visualizations st; error := error st;
                     isDragging := isDragging st |} true
                = ([Set_ (setIsCleanMode true)], Returned tt)).
  { unfold handleCleanCheck. cbn [originalImage cleanImage].
    rewrite Hnarrow, Hclean, Htruthy. reflexivity. }
  rewrite Hon. cbn [fst run fold_left apply_event apply_setter].
  unfold activeImage, narrow, service_calls.
  cbn [isCleanMode cleanImage originalImage loadingState flat_map app].
  rewrite Hclean, Htruthy. repeat split.
Qed.

Lemma clean_mode_toggle_is_free_witness :
  activeImage (run Fixtures.uploaded_clean
                 (fst (handleCleanCheck Fixtures.failing_service Fixtures.uploaded_clean false)))
  = Some Fixtures.photo
  /\ cleanImage (run Fixtures.uploaded_clean
                   (fst (handleCleanCheck Fixtures.failing_service Fixtures.uploaded_clean false)))
     = Some (js "data:image/png;base64,Q0xFQU4")
  /\ handleCleanCheck Fixtures.failing_service
       (run Fixtures.uploaded_clean
          (fst (handleCleanCheck Fixtures.failing_service Fixtures.uploaded_clean false))) true
     = ([Set_ (setIsCleanMode true)], Returned tt).
Proof.
  destruct (clean_mode_toggle_is_free Fixtures.failing_service Fixtures.uploaded_clean
              (js "data:image/png;base64,Q0xFQU4") eq_refl eq_refl
              (fun H => eq_ind (js "data:image/png;base64,Q0xFQU4")
                          (fun l => match l with [] => False | _ :: _ => True end)
                          I [] H))
    as [_ [_ [Hcache [_ [_ [Hactive [Hon _]]]]]]].
  split; [exact Hactive|]. split; [exact Hcache|exact Hon].
Defined.

(** C4, as the code has it. The upload callback makes six setter calls and
    no service call: the original image becomes the new image, the cached
    cleaned image and the error are cleared, clean mode is turned off, and
    the advice and the visualizations are emptied, so the active image is the
    new image. It does not write [loadingState], which keeps the value it
    had (idle when the upload happens at idle), nor the selected category.
    After two uploads in a row nothing of the first remains. *)
Theorem upload_replaces_everything_but_the_phase st result :
  processFile result
  = ([Set_ (setOriginalImage (Some result)); Set_ (setCleanImage None);
      Set_ (setIsCleanMode false); Set_ (setAdvice (Json.JArray []));
      Set_ (setVisualizations []); Set_ (setError None)], Returned tt)
  /\ service_calls (fst (processFile result)) = []
  /\ run st (fst (processFile result))
     = {| originalImage := Some result; cleanImage := None; isCleanMode := false;
          loadingState := loadingState st; selectedCategory := selectedCategory st;
          advice := Json.JArray []; visualizations := []; error := None;
          isDragging := isDragging st |}
  /\ activeImage (run st (fst (processFile result))) = Some result
  /\ (loadingState st = idle -> loadingState (run st (fst (processFile result))) = idle)
  /\ (forall earlier,
        run (run st (fst (processFile earlier))) (fst (processFile result))
        = {| originalImage := Some result; cleanImage := None; isCleanMode := false;
             loadingState := loadingState st; selectedCategory := selectedCategory st;
             advice := Json.JArray []; visualizations := []; error := None;
             isDragging := isDragging st |}).
Proof.
  split; [reflexivity|]. split; [reflexivity|]. split; [reflexivity|].
  split; [reflexivity|]. split; [intros H; exact H|]. intros earlier. reflexivity.
Qed.

Lemma upload_replaces_everything_but_the_phase_witness :
  loadingState Fixtures.uploaded_clean = idle
  /\ loadingState (run Fixtures.uploaded_clean (fst (processFile Fixtures.other_photo))) = idle
  /\ cleanImage (run Fixtures.uploaded_clean (fst (processFile Fixtures.other_photo))) = None.
Proof.
  split; [reflexivity|]. split.
  - exact (proj1 (proj2 (proj2 (proj2 (proj2
      (upload_replaces_everything_but_the_phase Fixtures.uploaded_clean
         Fixtures.other_photo))))) eq_refl).
  - exact (f_equal cleanImage (proj1 (proj2 (proj2
      (upload_replaces_everything_but_the_phase Fixtures.uploaded_clean
         Fixtures.other_photo))))).
Defined.

(** C4 as stated fails for an upload that arrives while a phase is in
    flight (the [onload] of a second file, picked in the landing view, that
    is read late): with the analysis of the first photo awaited,
    [loadingState] is analyzing, and it is still analyzing after the second
    photo is uploaded. *)
Lemma upload_does_not_reset_the_phase :
  dashboard_rendered
    (run Fixtures.uploaded
       (firstn 4 (fst (handleAnalysis Fixtures.advising_service Fixtures.uploaded)))) = true
  /\ nth_error (fst (handleAnalysis Fixtures.advising_service Fixtures.uploaded)) 4
     = Some (Await (AnalyzeRoomDesign Fixtures.photo LIGHTING)
               (fst (analyzeRoomDesign Fixtures.advising_service Fixtures.photo LIGHTING)))
  /\ loadingState
       (run Fixtures.uploaded
          (firstn 4 (fst (handleAnalysis Fixtures.advising_service Fixtures.uploaded))))
     = analyzing
  /\ loadingState
       (run (run Fixtures.uploaded
               (firstn 4 (fst (handleAnalysis Fixtures.advising_service Fixtures.uploaded))))
          (fst (processFile Fixtures.other_photo)))
     = analyzing
  /\ loadingState
       (run (run Fixtures.uploaded
               (firstn 4 (fst (handleAnalysis Fixtures.advising_service Fixtures.uploaded))))
          (fst (processFile Fixtures.other_photo)))
     <> idle.
Proof.
  split; [reflexivity|]. split; [reflexivity|]. split; [reflexivity|].
  split; [reflexivity|discriminate].
Qed.

End AppFacts.

(** * Further properties of the service *)
Module ServiceExtras.
Import JS Types GeminiService Observe.

Lemma cleanRoomImage_eq env key img :
  narrow (API_KEY env) = Some key ->
  cleanRoomImage env img =
  match remote env key (declutter_request_of img) with
  | Threw e =>
      ([Request key (declutter_request_of img);
        ConsoleError [js "Error cleaning room:"] e], Threw e)
  | Returned response =>
      match first_inline_image (first_candidate_parts response) with
      | Some url => ([Request key (declutter_request_of img)], Returned url)
      | None =>
          ([Request key (declutter_request_of img);
            ConsoleError [js "Error cleaning room:"] (Error (js "No image generated."))],
           Threw (Error (js "No image generated.")))
      end
  end.
Proof.
  intros Hkey. unfold cleanRoomImage, getClient. rewrite Hkey.
  unfold generateContent.
  cbv beta iota zeta delta [bind lift emit try_catch ret throw apiKey].
  change (declutter_request (js "gemini-2.5-flash-image") img)
    with (declutter_request_of img).
  destruct (remote env key (declutter_request_of img)) as [response|e]; [|reflexivity].
  destruct (first_inline_image (first_candidate_parts response)); reflexivity.
Qed.

Lemma cleanRoomImage_no_key env img :
  narrow (API_KEY env) = None ->
  cleanRoomImage env img = ([], Threw (Error (js "API Key is missing."))).
Proof.
  intros Hkey. unfold cleanRoomImage, getClient. now rewrite Hkey.
Qed.

(** X1. Without a key in the environment (absent or empty), each of the
    three operations rejects with the error "API Key is missing." before
    anything else happens: no request is sent and nothing is logged. *)
Theorem missing_key_stops_every_operation env img cat count :
  narrow (API_KEY env) = None ->
  cleanRoomImage env img = ([], Threw (Error (js "API Key is missing.")))
  /\ analyzeRoomDesign env img cat = ([], Threw (Error (js "API Key is missing.")))
  /\ generateDesignVisualizations env img cat count
     = ([], Threw (Error (js "API Key is missing."))).
Proof.
  intros Hkey. split; [|split].
  - now apply cleanRoomImage_no_key.
  - now apply AnalyzeFacts.analyzeRoomDesign_no_key.
  - now apply VisualizeFacts.generateDesignVisualizations_no_key.
Qed.

Lemma missing_key_stops_every_operation_witness :
  cleanRoomImage {| API_KEY := Some []; remote := fun _ _ => Returned (Fixtures.image_response (js "QUJD")) |}
    Fixtures.photo
  = ([], Threw (Error (js "API Key is missing.")))
  /\ generateDesignVisualizations
       {| API_KEY := None; remote := fun _ _ => Returned (Fixtures.image_response (js "QUJD")) |}
       Fixtures.photo LAYOUT 4
     = ([], Threw (Error (js "API Key is missing."))).
Proof.
  split.
  - exact (proj1 (missing_key_stops_every_operation
      {| API_KEY := Some []; remote := fun _ _ => Returned (Fixtures.image_response (js "QUJD")) |}
      Fixtures.photo LAYOUT 4 eq_refl)).
  - exact (proj2 (proj2 (missing_key_stops_every_operation
      {| API_KEY := None; remote := fun _ _ => Returned (Fixtures.image_response (js "QUJD")) |}
      Fixtures.photo LAYOUT 4 eq_refl))).
Defined.

(** X2. With a key, [cleanRoomImage] sends exactly one request. It resolves
    to the data URL of the first part with inline data of the first
    candidate, having logged nothing; when the request fails it logs that
    error once and rejects with it; when the response has no part with
    inline data it logs and rejects with "No image generated.". *)
Theorem cleanRoomImage_outcomes env key img :
  narrow (API_KEY env) = Some key ->
  requests_of (fst (cleanRoomImage env img)) = [declutter_request_of img]
  /\ (forall e,
        remote env key (declutter_request_of img) = Threw e ->
        snd (cleanRoomImage env img) = Threw e
        /\ console_errors_of (fst (cleanRoomImage env img))
           = [([js "Error cleaning room:"], e)])
  /\ (forall response,
        remote env key (declutter_request_of img) = Returned response ->
        first_inline_image (first_candidate_parts response) = None ->
        snd (cleanRoomImage env img) = Threw (Error (js "No image generated."))
        /\ console_errors_of (fst (cleanRoomImage env img))
           = [([js "Error cleaning room:"], Error (js "No image generated."))])
  /\ (forall response url,
        remote env key (declutter_request_of img) = Returned response ->
        first_inline_image (first_candidate_parts response) = Some url ->
        snd (cleanRoomImage env img) = Returned url
        /\ console_errors_of (fst (cleanRoomImage env img)) = []).
Proof.
  intros Hkey. rewrite (cleanRoomImage_eq env key img Hkey).
  split; [|split; [|split]].
  - destruct (remote env key (declutter_request_of img)) as [response|e]; [|reflexivity].
    destruct (first_inline_image (first_candidate_parts response)); reflexivity.
  - intros e ->. split; reflexivity.
  - intros response -> ->. split; reflexivity.
  - intros response url -> ->. split; reflexivity.
Qed.

Lemma cleanRoomImage_outcomes_witness :
  snd (cleanRoomImage (Fixtures.env_answering (Returned Fixtures.no_image_response))
         Fixtures.photo)
  = Threw (Error (js "No image generated."))
  /\ snd (cleanRoomImage
            (Fixtures.env_answering (Returned (Fixtures.image_response (js "Q0xFQU4"))))
            Fixtures.photo)
     = Returned (js "data:image/png;base64,Q0xFQU4")
  /\ snd (cleanRoomImage (Fixtures.env_answering (Threw (RemoteError (js "503"))))
            Fixtures.photo)
     = Threw (RemoteError (js "503")).
Proof.
  split; [|split].
  - exact (proj1 (proj1 (proj2 (proj2
      (cleanRoomImage_outcomes
         (Fixtures.env_answering (Returned Fixtures.no_image_response))
         (js "key") Fixtures.photo eq_refl))) Fixtures.no_image_response eq_refl eq_refl)).
  - exact (proj1 (proj2 (proj2 (proj2
      (cleanRoomImage_outcomes
         (Fixtures.env_answering (Returned (Fixtures.image_response (js "Q0xFQU4"))))
         (js "key") Fixtures.photo eq_refl)))
      (Fixtures.image_response (js "Q0xFQU4")) (js "data:image/png;base64,Q0xFQU4")
      eq_refl eq_refl)).
  - exact (proj1 (proj1 (proj2
      (cleanRoomImage_outcomes
         (Fixtures.env_answering (Threw (RemoteError (js "503"))))
         (js "key") Fixtures.photo eq_refl)) (RemoteError (js "503")) eq_refl)).
Defined.

Lemma analyzeRoomDesign_requests_with_key env key img cat :
  narrow (API_KEY env) = Some key ->
  requests_of (fst (analyzeRoomDesign env img cat)) = [analysis_request_of img cat].
Proof.
  intros Hkey. rewrite (AnalyzeFacts.analyzeRoomDesign_eq env key img cat Hkey).
  destruct (remote env key (analysis_request_of img cat)) as [response|e0];
    [|reflexivity].
  destruct (Json.parse (or_else (text response) (js "{}"))) as [json|]; [|reflexivity].
  destruct (Json.get_property json (js "advice")); reflexivity.
Qed.

(** X3. With a key, [analyzeRoomDesign] sends exactly one request. Whenever
    it rejects, it has logged the rejecting error exactly once, under
    "Error analyzing room:"; whenever it resolves, it has logged nothing.
    A failure of the request itself is passed on unchanged. *)
Theorem analyzeRoomDesign_logs_each_rejection env key img cat :
  narrow (API_KEY env) = Some key ->
  requests_of (fst (analyzeRoomDesign env img cat)) = [analysis_request_of img cat]
  /\ (forall e,
        snd (analyzeRoomDesign env img cat) = Threw e ->
        console_errors_of (fst (analyzeRoomDesign env img cat))
        = [([js "Error analyzing room:"], e)])
  /\ (forall adviceResult,
        snd (analyzeRoomDesign env img cat) = Returned adviceResult ->
        console_errors_of (fst (analyzeRoomDesign env img cat)) = [])
  /\ (forall e,
        remote env key (analysis_request_of img cat) = Threw e ->
        snd (analyzeRoomDesign env img cat) = Threw e).
Proof.
  intros Hkey. rewrite (AnalyzeFacts.analyzeRoomDesign_eq env key img cat Hkey).
  destruct (remote env key (analysis_request_of img cat)) as [response|e0].
  - destruct (Json.parse (or_else (text response) (js "{}"))) as [json|].
    + destruct (Json.get_property json (js "advice")) as [advice|e1].
      * repeat split; try discriminate; try reflexivity.
      * repeat split; try discriminate; try reflexivity.
        intros e [= <-]. reflexivity.
    + repeat split; try discriminate; try reflexivity.
      intros e [= <-]. reflexivity.
  - repeat split; try discriminate; try reflexivity.
    + intros e [= <-]. reflexivity.
    + intros e [= <-]. reflexivity.
Qed.

Lemma analyzeRoomDesign_logs_each_rejection_witness :
  snd (analyzeRoomDesign (Fixtures.env_answering (Threw (RemoteError (js "503"))))
         Fixtures.photo DECOR)
  = Threw (RemoteError (js "503"))
  /\ console_errors_of
       (fst (analyzeRoomDesign (Fixtures.env_answering (Threw (RemoteError (js "503"))))
               Fixtures.photo DECOR))
     = [([js "Error analyzing room:"], RemoteError (js "503"))].
Proof.
  split.
  - exact (proj2 (proj2 (proj2
      (analyzeRoomDesign_logs_each_rejection
         (Fixtures.env_answering (Threw (RemoteError (js "503"))))
         (js "key") Fixtures.photo DECOR eq_refl))) (RemoteError (js "503")) eq_refl).
  - exact (proj1 (proj2
      (analyzeRoomDesign_logs_each_rejection
         (Fixtures.env_answering (Threw (RemoteError (js "503"))))
         (js "key") Fixtures.photo DECOR eq_refl)) (RemoteError (js "503")) eq_refl).
Defined.

Lemma startsWith_app prefix rest : Upload.startsWith (prefix ++ rest) prefix = true.
Proof.
  induction prefix as [|p prefix IH]; [destruct rest; reflexivity|].
  cbn. now rewrite N.eqb_refl, IH.
Qed.

Lemma first_inline_image_some ps url :
  first_inline_image ps = Some url ->
  exists blob, url = png_prefix ++ to_template (data blob).
Proof.
  induction ps as [|part ps IH]; cbn [first_inline_image]; [discriminate|].
  destruct (inlineData part) as [blob|]; [|exact IH].
  intros [= <-]. now exists blob.
Qed.

Lemma variation_images_are_data_urls env key img vs :
  Forall (fun url => Upload.startsWith url png_prefix = true)
    (flat_map (fun v => image_list (variation_image env key img v)) vs).
Proof.
  induction vs as [|v vs IH]; [constructor|].
  cbn [flat_map]. apply Forall_app. split; [|exact IH].
  unfold variation_image.
  destruct (remote env key (variation_request_of img v)) as [response|e]; [|constructor].
  destruct (first_inline_image (first_candidate_parts response)) as [url|] eqn:Himage;
    [|constructor].
  destruct (first_inline_image_some _ _ Himage) as [blob ->].
  constructor; [apply startsWith_app|constructor].
Qed.

Lemma cleaned_has_png_prefix env img cleaned :
  snd (cleanRoomImage env img) = Returned cleaned ->
  Upload.startsWith cleaned png_prefix = true.
Proof.
  intros Hrun.
  destruct (narrow (API_KEY env)) as [key|] eqn:Hkey.
  - rewrite (cleanRoomImage_eq env key img Hkey) in Hrun.
    destruct (remote env key (declutter_request_of img)) as [response|e];
      [|discriminate Hrun].
    destruct (first_inline_image (first_candidate_parts response)) as [url|] eqn:Himage;
      [|discriminate Hrun].
    injection Hrun as <-.
    destruct (first_inline_image_some _ _ Himage) as [blob ->].
    apply startsWith_app.
  - rewrite (cleanRoomImage_no_key env img Hkey) in Hrun. discriminate Hrun.
Qed.

Lemma visualizations_well_formed env img cat result :
  snd (generateDesignVisualizations env img cat 4) = Returned result ->
  length result <= 4
  /\ Forall (fun url => Upload.startsWith url png_prefix = true) result.
Proof.
  intros Hrun.
  destruct (narrow (API_KEY env)) as [key|] eqn:Hkey.
  - destruct (VisualizeFacts.generateDesignVisualizations_eq env key img cat 4 Hkey)
      as [log [Heq _]].
    rewrite Heq in Hrun. injection Hrun as <-. split.
    + pose proof (VisualizeFacts.images_length_le (variation_image env key img)
                    (slice0 (variations_for cat) 4)) as Hle.
      pose proof (VisualizeFacts.slice0_length (variations_for cat) 4) as Hlen.
      rewrite VisualizeFacts.variations_length in Hlen. cbn in Hlen. lia.
    + apply variation_images_are_data_urls.
  - rewrite (VisualizeFacts.generateDesignVisualizations_no_key env img cat 4 Hkey)
      in Hrun.
    discriminate Hrun.
Qed.

(** X4. Every image the service hands back, the cleaned image as well as
    each visualization, is a data URL that starts with
    "data:image/png;base64,", so it is never the empty string. *)
Theorem service_images_are_png_data_urls env img cat count :
  (forall cleaned,
      snd (cleanRoomImage env img) = Returned cleaned ->
      Upload.startsWith cleaned png_prefix = true /\ cleaned <> [])
  /\ (forall result,
        snd (generateDesignVisualizations env img cat count) = Returned result ->
        Forall (fun url => Upload.startsWith url png_prefix = true /\ url <> []) result).
Proof.
  assert (Hnonempty : forall url, Upload.startsWith url png_prefix = true -> url <> []).
  { intros url Hprefix ->. discriminate Hprefix. }
  split.
  - intros cleaned Hrun.
    destruct (narrow (API_KEY env)) as [key|] eqn:Hkey.
    + rewrite (cleanRoomImage_eq env key img Hkey) in Hrun.
      destruct (remote env key (declutter_request_of img)) as [response|e];
        [|discriminate Hrun].
      destruct (first_inline_image (first_candidate_parts response)) as [url|] eqn:Himage;
        [|discriminate Hrun].
      injection Hrun as <-.
      destruct (first_inline_image_some _ _ Himage) as [blob ->].
      pose proof (startsWith_app png_prefix (to_template (data blob))) as Hprefix.
      split; [exact Hprefix|exact (Hnonempty _ Hprefix)].
    + rewrite (cleanRoomImage_no_key env img Hkey) in Hrun. discriminate Hrun.
  - intros result Hrun.
    destruct (narrow (API_KEY env)) as [key|] eqn:Hkey.
    + destruct (VisualizeFacts.generateDesignVisualizations_eq env key img cat count Hkey)
        as [log [Heq _]].
      rewrite Heq in Hrun. injection Hrun as <-.
      eapply Forall_impl; [|apply variation_images_are_data_urls].
      intros url Hprefix. split; [exact Hprefix|exact (Hnonempty _ Hprefix)].
    + rewrite (VisualizeFacts.generateDesignVisualizations_no_key env img cat count Hkey)
        in Hrun.
      discriminate Hrun.
Qed.

Lemma service_images_are_png_data_urls_witness :
  Upload.startsWith (js "data:image/png;base64,Q0xFQU4") png_prefix = true
  /\ js "data:image/png;base64,Q0xFQU4" <> [].
Proof.
  exact (proj1 (service_images_are_png_data_urls
           (Fixtures.env_answering (Returned (Fixtures.image_response (js "Q0xFQU4"))))
           Fixtures.photo LIGHTING 4)
         (js "data:image/png;base64,Q0xFQU4") eq_refl).
Defined.

(** X5. Every request of the three operations has the same two parts: the
    image, always declared as image/jpeg whatever media type its data URL
    names, with [cleanBase64] of the given string as data, followed by one
    text part. *)
Theorem every_request_declares_jpeg env img cat count params :
  In params (requests_of (fst (cleanRoomImage env img))
             ++ requests_of (fst (analyzeRoomDesign env img cat))
             ++ requests_of (fst (generateDesignVisualizations env img cat count))) ->
  exists prompt,
    contents params = [inline_part (js "image/jpeg") (cleanBase64 img); text_part prompt].
Proof.
  intros Hin. apply in_app_or in Hin. destruct Hin as [Hclean|Hin].
  - destruct (narrow (API_KEY env)) as [key|] eqn:Hkey.
    + rewrite (cleanRoomImage_eq env key img Hkey) in Hclean.
      assert (Hparams : params = declutter_request_of img).
      { destruct (remote env key (declutter_request_of img)) as [response|e].
        - destruct (first_inline_image (first_candidate_parts response));
            destruct Hclean as [<-|[]]; reflexivity.
        - destruct Hclean as [<-|[]]. reflexivity. }
      rewrite Hparams. eexists. reflexivity.
    + rewrite (cleanRoomImage_no_key env img Hkey) in Hclean. destruct Hclean.
  - apply in_app_or in Hin. destruct Hin as [Hanalysis|Hvisual].
    + apply AnalyzeFacts.analyzeRoomDesign_requests in Hanalysis.
      destruct Hanalysis as [<-|[]]. eexists. reflexivity.
    + pose proof (VisualizeFacts.generateDesignVisualizations_requests env img cat count)
        as Hall.
      rewrite Forall_forall in Hall. destruct (Hall params Hvisual) as [v ->].
      eexists. reflexivity.
Qed.

Lemma every_request_declares_jpeg_witness :
  exists prompt,
    contents (declutter_request_of Fixtures.other_photo)
    = [inline_part (js "image/jpeg") (js "iVBORw0KGgo"); text_part prompt].
Proof.
  exact (every_request_declares_jpeg
           (Fixtures.env_answering (Threw (RemoteError (js "503"))))
           Fixtures.other_photo LIGHTING 4
           (declutter_request_of Fixtures.other_photo) (or_introl eq_refl)).
Defined.

Lemma promise_all_log {Ev A} (ps : list (M Ev A)) :
  fst (promise_all ps) = flat_map fst ps.
Proof.
  induction ps as [|[log r] ps IH]; [reflexivity|].
  cbn [promise_all flat_map fst]. destruct (promise_all ps) as [log' rs].
  cbn [fst] in *. now rewrite IH.
Qed.

Lemma console_errors_of_app l1 l2 :
  console_errors_of (l1 ++ l2) = console_errors_of l1 ++ console_errors_of l2.
Proof. apply flat_map_app. Qed.

  (** The console messages of a visualization run as the model's log lists
      them, one variation after the other. *)
Lemma visualization_console_errors env key img cat count :
  narrow (API_KEY env) = Some key ->
  console_errors_of (fst (generateDesignVisualizations env img cat count))
  = flat_map (fun v =>
      match remote env key (variation_request_of img v) with
      | Threw e => [([js "Failed to generate variation:"; v], e)]
      | Returned _ => []
      end) (slice0 (variations_for cat) count).
Proof.
  intros Hkey. unfold generateDesignVisualizations.
  rewrite (VisualizeFacts.getClient_with_key _ _ Hkey).
  cbv beta iota zeta delta [bind lift ret].
  pose proof (promise_all_log
                (map (generateVariation env {| apiKey := key |}
                        (js "gemini-2.5-flash-image") img)
                   (slice0 (variations_for cat) count))) as Hlog.
  destruct (promise_all _) as [log [results|e]]; cbn [fst] in *; subst log;
    rewrite ?app_nil_r; cbn [app].
  all: induction (slice0 (variations_for cat) count) as [|v vs IH]; [reflexivity|];
    cbn [map flat_map]; rewrite console_errors_of_app, IH;
    rewrite VisualizeFacts.generateVariation_eq;
    destruct (remote env key (variation_request_of img v)); reflexivity.
Qed.

(** X6. With a key, [generateDesignVisualizations] logs one console error
    for each selected variation whose request failed, naming the variation
    and the error, and no other; a variation whose response merely has no
    image part is dropped without any message. The messages come in the
    order in which the rejections arrive, which the variations do not
    determine: the statement is up to their order. *)
Theorem visualization_failures_are_logged env key img cat count :
  narrow (API_KEY env) = Some key ->
  Permutation
    (console_errors_of (fst (generateDesignVisualizations env img cat count)))
    (flat_map (fun v =>
       match remote env key (variation_request_of img v) with
       | Threw e => [([js "Failed to generate variation:"; v], e)]
       | Returned _ => []
       end) (slice0 (variations_for cat) count)).
Proof.
  intros Hkey. rewrite (visualization_console_errors env key img cat count Hkey).
  apply Permutation_refl.
Qed.

Lemma visualization_failures_are_logged_witness :
  Permutation
    (console_errors_of
       (fst (generateDesignVisualizations
               (Fixtures.env_failing_on (nth 1 (variations_for LIGHTING) []))
               Fixtures.photo LIGHTING 4)))
    [([js "Failed to generate variation:"; nth 1 (variations_for LIGHTING) []],
      RemoteError (js "503"))]
  /\ Permutation
       (console_errors_of
          (fst (generateDesignVisualizations
                  (Fixtures.env_without_image_on (nth 1 (variations_for LIGHTING) []))
                  Fixtures.photo LIGHTING 4)))
       [].
Proof.
  split.
  - exact (visualization_failures_are_logged
             (Fixtures.env_failing_on (nth 1 (variations_for LIGHTING) []))
             (js "key") Fixtures.photo LIGHTING 4 eq_refl).
  - exact (visualization_failures_are_logged
             (Fixtures.env_without_image_on (nth 1 (variations_for LIGHTING) []))
             (js "key") Fixtures.photo LIGHTING 4 eq_refl).
Defined.

Lemma slice0_all {A} (arr : list A) count :
  (Z.of_nat (length arr) <= count)%Z -> slice0 arr count = arr.
Proof.
  intros Hcount. unfold slice0.
  assert (Hneg : (count <? 0)%Z = false) by (apply Z.ltb_ge; lia).
  rewrite Hneg. rewrite Z.min_r by exact Hcount.
  rewrite Nat2Z.id. apply firstn_all.
Qed.

(** X7. Asking for more than four visualizations is the same as asking for
    four: the same requests, the same log and the same result. *)
Theorem count_above_four_is_four env img cat count :
  (4 <= count)%Z ->
  generateDesignVisualizations env img cat count
  = generateDesignVisualizations env img cat 4.
Proof.
  intros Hcount. unfold generateDesignVisualizations.
  rewrite (slice0_all (variations_for cat) count)
    by (rewrite VisualizeFacts.variations_length; exact Hcount).
  rewrite (slice0_all (variations_for cat) 4)
    by (rewrite VisualizeFacts.variations_length; apply Z.le_refl).
  reflexivity.
Qed.

Lemma count_above_four_is_four_witness :
  generateDesignVisualizations
    (Fixtures.env_failing_on (nth 1 (variations_for LIGHTING) [])) Fixtures.photo LAYOUT 100
  = generateDesignVisualizations
      (Fixtures.env_failing_on (nth 1 (variations_for LIGHTING) [])) Fixtures.photo LAYOUT 4.
Proof.
  apply (count_above_four_is_four
           (Fixtures.env_failing_on (nth 1 (variations_for LIGHTING) []))
           Fixtures.photo LAYOUT 100).
  lia.
Defined.

Lemma split_pieces_have_no_sep sep s :
  Forall (fun piece => includes sep piece = false) (split sep s).
Proof.
  induction s as [|c rest IH]; [repeat constructor|].
  cbn [split]. destruct (N.eqb c sep) eqn:Hc.
  - constructor; [reflexivity|exact IH].
  - assert (Hhead : forall piece, includes sep piece = false ->
                                  includes sep (c :: piece) = false).
    { intros piece Hpiece. unfold includes in *. cbn [existsb].
      now rewrite N.eqb_sym, Hc, Hpiece. }
    destruct (split sep rest) as [|piece pieces].
    + constructor; [now apply Hhead|constructor].
    + inversion IH as [|? ? Hpiece Hpieces]; subst.
      constructor; [now apply Hhead|exact Hpieces].
Qed.

Lemma cleanBase64_same_or_comma_free s :
  cleanBase64 s = s \/ includes comma (cleanBase64 s) = false.
Proof.
  unfold cleanBase64.
  pose proof (split_pieces_have_no_sep comma s) as Hpieces.
  destruct (split comma s) as [|first [|piece pieces]]; cbn [nth_error];
    [left; reflexivity..|].
  rewrite Base64Facts.or_else_some.
  destruct piece as [|c piece]; [left; reflexivity|].
  right. inversion Hpieces as [|? ? _ Hrest]; subst.
  inversion Hrest as [|? ? Hpiece _]; subst. exact Hpiece.
Qed.

(** X8. [cleanBase64] is idempotent: its result is a string it leaves
    unchanged, so stripping an already stripped payload is harmless. *)
Theorem cleanBase64_idempotent s :
  cleanBase64 (cleanBase64 s) = cleanBase64 s.
Proof.
  destruct (cleanBase64_same_or_comma_free s) as [Hsame|Hfree].
  - now rewrite Hsame.
  - unfold cleanBase64 at 1. now rewrite (Base64Facts.split_no_sep _ _ Hfree).
Qed.

Lemma cleanBase64_data_url d :
  includes comma d = false ->
  cleanBase64 (png_prefix ++ d) = match d with [] => png_prefix ++ d | _ :: _ => d end.
Proof.
  intros Hd. unfold cleanBase64.
  change png_prefix with (js "data:image/png;base64" ++ [comma]).
  rewrite <- app_assoc. cbn [app].
  rewrite (Base64Facts.split_app_sep comma (js "data:image/png;base64") d eq_refl).
  rewrite (Base64Facts.split_no_sep _ _ Hd). cbn [nth_error].
  apply Base64Facts.or_else_some.
Qed.

(** X9. A data URL built by the service from the inline data of a response
    goes back to that data under [cleanBase64], provided the data has no
    comma (base64 has none) and is not empty. At the edges: for empty data
    the whole URL "data:image/png;base64," is kept, and for a part without
    data the URL ends in "undefined" and the text "undefined" comes out. *)
Theorem data_url_round_trip (payload : option jsstring) :
  match payload with Some d => includes comma d = false | None => True end ->
  cleanBase64 (png_prefix ++ to_template payload)
  = match payload with
    | Some [] => png_prefix
    | Some (c :: d) => c :: d
    | None => js "undefined"
    end.
Proof.
  intros Hfree.
  destruct payload as [d|]; cbn [to_template].
  - rewrite (cleanBase64_data_url d Hfree). destruct d; [apply app_nil_r|reflexivity].
  - exact (cleanBase64_data_url (js "undefined") eq_refl).
Qed.

Lemma data_url_round_trip_witness :
  cleanBase64 (js "data:image/png;base64,Q0xFQU4") = js "Q0xFQU4"
  /\ cleanBase64 (js "data:image/png;base64,") = js "data:image/png;base64,".
Proof.
  split.
  - exact (data_url_round_trip (Some (js "Q0xFQU4")) eq_refl).
  - exact (data_url_round_trip (Some []) eq_refl).
Defined.

End ServiceExtras.

(** * Further properties of the workflow controller *)
Module AppExtras.
Import JS Types App Outcome.

Lemma not_rendered_no_original st :
  dashboard_rendered st = false -> narrow (originalImage st) = None.
Proof. unfold dashboard_rendered, narrow. now intros ->. Qed.

  (** The whole run of [handleCleanCheck] when the box is checked and no
      cleaned image is cached, by the outcome of the clean operation. *)
Lemma handleCleanCheck_clean_eq svc st original :
  originalImage st = Some original ->
  dashboard_rendered st = true ->
  truthy (cleanImage st) = false ->
  handleCleanCheck svc st true =
  (match cleanRoomImage svc original with
   | (clog, Returned cleaned) =>
       [Set_ (setLoadingState cleaning); Set_ (setError None);
        Await (CleanRoomImage original) clog;
        Set_ (setCleanImage (Some cleaned)); Set_ (setIsCleanMode true);
        Set_ (setLoadingState idle)]
   | (clog, Threw _) =>
       [Set_ (setLoadingState cleaning); Set_ (setError None);
        Await (CleanRoomImage original) clog;
        Set_ (setError (Some clean_failed_message)); Set_ (setIsCleanMode false);
        Set_ (setLoadingState idle)]
   end, Returned tt).
Proof.
  intros Horiginal Hrendered Hcached.
  destruct (AppFacts.rendered_has_original st Hrendered) as [o [Hnarrow Ho]].
  assert (o = original) by congruence. subst o.
  unfold handleCleanCheck. rewrite Hnarrow, Hcached. cbn [negb].
  unfold await, set, clean_failed_message.
  cbv beta iota delta [bind emit try_catch try_catch_finally ret].
  destruct (cleanRoomImage svc original) as [clog [cleaned|e]]; reflexivity.
Qed.

Lemma nothing_happens_without_an_image_helper svc st :
  dashboard_rendered st = false ->
  handleAnalysis svc st = ([], Returned tt)
  /\ forall checked, handleCleanCheck svc st checked = ([], Returned tt).
Proof.
  intros Hlanding. pose proof (not_rendered_no_original st Hlanding) as Hnone.
  unfold handleAnalysis, handleCleanCheck. rewrite Hnone. split; [reflexivity|].
  intros checked. reflexivity.
Qed.

(** X10. Without an uploaded image neither handler does anything: Generate
    and the clean-mode checkbox (checked or unchecked) make no setter call
    and no service call. *)
Theorem nothing_happens_without_an_image svc st :
  dashboard_rendered st = false ->
  handleAnalysis svc st = ([], Returned tt)
  /\ forall checked, handleCleanCheck svc st checked = ([], Returned tt).
Proof.
  exact (nothing_happens_without_an_image_helper svc st).
Qed.

Lemma nothing_happens_without_an_image_witness :
  handleAnalysis Fixtures.advising_service initialState = ([], Returned tt)
  /\ handleCleanCheck Fixtures.advising_service initialState true = ([], Returned tt).
Proof.
  destruct (nothing_happens_without_an_image Fixtures.advising_service initialState eq_refl)
    as [Hgenerate Hclean].
  split; [exact Hgenerate|exact (Hclean true)].
Defined.

Lemma run_clean_success svc st original cleaned :
  originalImage st = Some original ->
  dashboard_rendered st = true ->
  truthy (cleanImage st) = false ->
  snd (cleanRoomImage svc original) = Returned cleaned ->
  run st (fst (handleCleanCheck svc st true))
  = {| originalImage := Some original; cleanImage := Some cleaned; isCleanMode := true;
       loadingState := idle; selectedCategory := selectedCategory st;
       advice := advice st; visualizations := visualizations st; error := None;
       isDragging := isDragging st |}.
Proof.
  intros Horiginal Hrendered Hcached Hclean.
  rewrite (handleCleanCheck_clean_eq svc st original Horiginal Hrendered Hcached).
  destruct (cleanRoomImage svc original) as [clog [c|e]]; cbn [snd] in Hclean;
    [|discriminate Hclean].
  injection Hclean as ->.
  cbn [fst run fold_left apply_event apply_setter originalImage cleanImage isCleanMode
       loadingState selectedCategory advice visualizations error isDragging].
  now rewrite Horiginal.
Qed.

(** X11. Checking the box with no cleaned image cached, when the clean
    operation succeeds: [loadingState] goes to cleaning and back to idle,
    one service call is made for the original image, the cleaned image is
    stored, clean mode is on and a previous error is cleared. The advice
    and the visualizations on screen, obtained for another image, are left
    as they are. The cleaned image is the active one if it is not empty. *)
Theorem clean_success_switches_to_the_cleaned_image svc st original cleaned :
  originalImage st = Some original ->
  dashboard_rendered st = true ->
  truthy (cleanImage st) = false ->
  snd (cleanRoomImage svc original) = Returned cleaned ->
  run st (fst (handleCleanCheck svc st true))
  = {| originalImage := Some original; cleanImage := Some cleaned; isCleanMode := true;
       loadingState := idle; selectedCategory := selectedCategory st;
       advice := advice st; visualizations := visualizations st; error := None;
       isDragging := isDragging st |}
  /\ loading_trace st (fst (handleCleanCheck svc st true))
     = [loadingState st; cleaning; idle]
  /\ service_calls (fst (handleCleanCheck svc st true)) = [CleanRoomImage original]
  /\ (cleaned <> [] ->
      activeImage (run st (fst (handleCleanCheck svc st true))) = Some cleaned).
Proof.
  intros Horiginal Hrendered Hcached Hclean.
  rewrite (handleCleanCheck_clean_eq svc st original Horiginal Hrendered Hcached).
  destruct (cleanRoomImage svc original) as [clog [c|e]]; cbn [snd] in Hclean;
    [|discriminate Hclean].
  injection Hclean as ->.
  cbn [fst run fold_left apply_event apply_setter originalImage cleanImage isCleanMode
       loadingState selectedCategory advice visualizations error isDragging].
  rewrite Horiginal. repeat split.
  intros Hnonempty. unfold activeImage, narrow. cbn [isCleanMode cleanImage].
  destruct cleaned; [congruence|reflexivity].
Qed.

Lemma clean_success_switches_to_the_cleaned_image_witness :
  activeImage
    (run Fixtures.uploaded
       (fst (handleCleanCheck
               (geminiService (Fixtures.env_answering
                  (Returned (Fixtures.image_response (js "Q0xFQU4")))))
               Fixtures.uploaded true)))
  = Some (js "data:image/png;base64,Q0xFQU4").
Proof.
  refine (proj2 (proj2 (proj2
    (clean_success_switches_to_the_cleaned_image
       (geminiService (Fixtures.env_answering
          (Returned (Fixtures.image_response (js "Q0xFQU4")))))
       Fixtures.uploaded Fixtures.photo (js "data:image/png;base64,Q0xFQU4")
       eq_refl eq_refl eq_refl eq_refl))) _).
  discriminate.
Defined.

(** X12. Checking the box with no cleaned image cached, when the clean
    operation fails: the clean message is shown, clean mode stays off, no
    cleaned image is stored, [loadingState] is back at idle, and the active
    image is still the original. Nothing is retried. *)
Theorem clean_failure_keeps_the_original svc st original e :
  originalImage st = Some original ->
  dashboard_rendered st = true ->
  truthy (cleanImage st) = false ->
  snd (cleanRoomImage svc original) = Threw e ->
  run st (fst (handleCleanCheck svc st true))
  = {| originalImage := Some original; cleanImage := cleanImage st; isCleanMode := false;
       loadingState := idle; selectedCategory := selectedCategory st;
       advice := advice st; visualizations := visualizations st;
       error := Some clean_failed_message; isDragging := isDragging st |}
  /\ snd (handleCleanCheck svc st true) = Returned tt
  /\ service_calls (fst (handleCleanCheck svc st true)) = [CleanRoomImage original]
  /\ activeImage (run st (fst (handleCleanCheck svc st true))) = Some original.
Proof.
  intros Horiginal Hrendered Hcached Hclean.
  rewrite (handleCleanCheck_clean_eq svc st original Horiginal Hrendered Hcached).
  destruct (cleanRoomImage svc original) as [clog [c|e']]; cbn [snd] in Hclean;
    [discriminate Hclean|].
  cbn [fst snd run fold_left apply_event apply_setter originalImage cleanImage isCleanMode
       loadingState selectedCategory advice visualizations error isDragging].
  rewrite Horiginal. repeat split.
Qed.

Lemma clean_failure_keeps_the_original_witness :
  error (run Fixtures.uploaded
           (fst (handleCleanCheck Fixtures.failing_service Fixtures.uploaded true)))
  = Some clean_failed_message
  /\ isCleanMode (run Fixtures.uploaded
                    (fst (handleCleanCheck Fixtures.failing_service Fixtures.uploaded true)))
     = false.
Proof.
  pose proof (proj1 (clean_failure_keeps_the_original
                Fixtures.failing_service Fixtures.uploaded Fixtures.photo
                (RemoteError (js "503")) eq_refl eq_refl eq_refl eq_refl)) as Hfinal.
  split.
  - exact (f_equal error Hfinal).
  - exact (f_equal isCleanMode Hfinal).
Defined.

(** X13. A Generate run in which both stages succeed ends with the advice
    and the visualizations of this run, no error, and [loadingState] at
    idle; the images, clean mode and the category are as before. While the
    analysis is awaited the previous advice, visualizations and error are
    already cleared, and while the visualization is awaited the new advice
    is already stored. *)
Theorem generate_success_stores_both_results svc st img adviceResult visualResult :
  dashboard_rendered st = true ->
  activeImage st = Some img ->
  snd (analyzeRoomDesign svc img (selectedCategory st)) = Returned adviceResult ->
  snd (generateDesignVisualizations svc img (selectedCategory st) 4) = Returned visualResult ->
  run st (fst (handleAnalysis svc st))
  = {| originalImage := originalImage st; cleanImage := cleanImage st;
       isCleanMode := isCleanMode st; loadingState := idle;
       selectedCategory := selectedCategory st;
       advice := adviceResult; visualizations := visualResult; error := None;
       isDragging := isDragging st |}
  /\ state_before st (fst (handleAnalysis svc st)) 4
     = {| originalImage := originalImage st; cleanImage := cleanImage st;
          isCleanMode := isCleanMode st; loadingState := analyzing;
          selectedCategory := selectedCategory st;
          advice := Json.JArray []; visualizations := []; error := None;
          isDragging := isDragging st |}
  /\ state_before st (fst (handleAnalysis svc st)) 7
     = {| originalImage := originalImage st; cleanImage := cleanImage st;
          isCleanMode := isCleanMode st; loadingState := visualizing;
          selectedCategory := selectedCategory st;
          advice := adviceResult; visualizations := []; error := None;
          isDragging := isDragging st |}.
Proof.
  intros Hrendered Hactive Hanalysis Hvisual.
  rewrite (AppFacts.handleAnalysis_eq svc st img Hrendered Hactive).
  destruct (analyzeRoomDesign svc img (selectedCategory st)) as [alog [a|ea]];
    cbn [snd] in Hanalysis; [|discriminate Hanalysis].
  destruct (generateDesignVisualizations svc img (selectedCategory st) 4)
    as [vlog [v|ev]]; cbn [snd] in Hvisual; [|discriminate Hvisual].
  injection Hanalysis as ->. injection Hvisual as ->.
  repeat split.
Qed.

Lemma generate_success_stores_both_results_witness :
  advice (run Fixtures.uploaded
            (fst (handleAnalysis Fixtures.advising_service Fixtures.uploaded)))
  = Json.JArray (Fixtures.advice_items Fixtures.advice_text)
  /\ error (run Fixtures.uploaded
              (fst (handleAnalysis Fixtures.advising_service Fixtures.uploaded)))
     = None.
Proof.
  pose proof (proj1 (generate_success_stores_both_results
                Fixtures.advising_service Fixtures.uploaded Fixtures.photo
                (Json.JArray (Fixtures.advice_items Fixtures.advice_text)) []
                eq_refl eq_refl eq_refl eq_refl)) as Hfinal.
  split.
  - exact (f_equal advice Hfinal).
  - exact (f_equal error Hfinal).
Defined.

(** X14. A Generate run with the service of the repository and no key in
    the environment: the analysis is called and rejects at once, no request
    is sent to the remote model, and the user sees the same generic
    "Analysis failed" message as for a busy model, with empty results and
    [loadingState] at idle. *)
Theorem generate_without_key_shows_the_generic_message env st :
  dashboard_rendered st = true ->
  narrow (GeminiService.API_KEY env) = None ->
  run st (fst (handleAnalysis (geminiService env) st))
  = {| originalImage := originalImage st; cleanImage := cleanImage st;
       isCleanMode := isCleanMode st; loadingState := idle;
       selectedCategory := selectedCategory st;
       advice := Json.JArray []; visualizations := [];
       error := Some analysis_failed_message; isDragging := isDragging st |}
  /\ remote_requests (fst (handleAnalysis (geminiService env) st)) = []
  /\ length (service_calls (fst (handleAnalysis (geminiService env) st))) = 1.
Proof.
  intros Hrendered Hkey.
  destruct (AppFacts.rendered_has_active st Hrendered) as [img Hactive].
  rewrite (AppFacts.handleAnalysis_eq (geminiService env) st img Hrendered Hactive).
  cbn [geminiService analyzeRoomDesign].
  rewrite (AnalyzeFacts.analyzeRoomDesign_no_key env img (selectedCategory st) Hkey).
  repeat split.
Qed.

Lemma generate_without_key_shows_the_generic_message_witness :
  error (run Fixtures.uploaded
           (fst (handleAnalysis
                   (geminiService {| GeminiService.API_KEY := None;
                                     GeminiService.remote := fun _ _ => Threw SyntaxError |})
                   Fixtures.uploaded)))
  = Some analysis_failed_message.
Proof.
  exact (f_equal error (proj1 (generate_without_key_shows_the_generic_message
           {| GeminiService.API_KEY := None;
              GeminiService.remote := fun _ _ => Threw SyntaxError |}
           Fixtures.uploaded eq_refl eq_refl))).
Defined.

Lemma handlers_frame svc st :
  (originalImage (run st (fst (handleAnalysis svc st))) = originalImage st
   /\ cleanImage (run st (fst (handleAnalysis svc st))) = cleanImage st
   /\ isCleanMode (run st (fst (handleAnalysis svc st))) = isCleanMode st
   /\ selectedCategory (run st (fst (handleAnalysis svc st))) = selectedCategory st
   /\ isDragging (run st (fst (handleAnalysis svc st))) = isDragging st)
  /\ (forall checked,
        originalImage (run st (fst (handleCleanCheck svc st checked))) = originalImage st
        /\ selectedCategory (run st (fst (handleCleanCheck svc st checked)))
           = selectedCategory st
        /\ advice (run st (fst (handleCleanCheck svc st checked))) = advice st
        /\ visualizations (run st (fst (handleCleanCheck svc st checked)))
           = visualizations st
        /\ isDragging (run st (fst (handleCleanCheck svc st checked))) = isDragging st).
Proof.
  destruct (dashboard_rendered st) eqn:Hrendered.
  - split.
    + destruct (AppFacts.rendered_has_active st Hrendered) as [img Hactive].
      rewrite (AppFacts.handleAnalysis_eq svc st img Hrendered Hactive).
      destruct (analyzeRoomDesign svc img (selectedCategory st)) as [alog [a|ea]];
        [|repeat split].
      destruct (generateDesignVisualizations svc img (selectedCategory st) 4)
        as [vlog [v|ev]]; repeat split.
    + intros checked.
      destruct (AppFacts.rendered_has_original st Hrendered) as [original [Hnarrow Ho]].
      destruct checked.
      * destruct (truthy (cleanImage st)) eqn:Hcached.
        -- unfold handleCleanCheck. rewrite Hnarrow, Hcached. repeat split.
        -- rewrite (handleCleanCheck_clean_eq svc st original Ho Hrendered Hcached).
           destruct (cleanRoomImage svc original) as [clog [c|e]]; repeat split.
      * unfold handleCleanCheck. rewrite Hnarrow. repeat split.
  - destruct (nothing_happens_without_an_image_helper svc st Hrendered) as [-> Hclean].
    split; [repeat split|].
    intros checked. rewrite (Hclean checked). repeat split.
Qed.

(** X15. What the two handlers never touch, whatever the service does:
    a Generate run leaves the original image, the cleaned image, clean
    mode, the category and the dragging flag as they are; a change of the
    checkbox leaves the original image, the category, the advice, the
    visualizations and the dragging flag as they are. *)
Theorem handlers_leave_the_rest_alone svc st :
  (originalImage (run st (fst (handleAnalysis svc st))) = originalImage st
   /\ cleanImage (run st (fst (handleAnalysis svc st))) = cleanImage st
   /\ isCleanMode (run st (fst (handleAnalysis svc st))) = isCleanMode st
   /\ selectedCategory (run st (fst (handleAnalysis svc st))) = selectedCategory st
   /\ isDragging (run st (fst (handleAnalysis svc st))) = isDragging st)
  /\ (forall checked,
        originalImage (run st (fst (handleCleanCheck svc st checked))) = originalImage st
        /\ selectedCategory (run st (fst (handleCleanCheck svc st checked)))
           = selectedCategory st
        /\ advice (run st (fst (handleCleanCheck svc st checked))) = advice st
        /\ visualizations (run st (fst (handleCleanCheck svc st checked)))
           = visualizations st
        /\ isDragging (run st (fst (handleCleanCheck svc st checked))) = isDragging st).
Proof.
  exact (handlers_frame svc st).
Qed.

(** X16. Which controls are disabled at the moment a handler starts to
    await the service, whatever state it resumed in (whatever other
    handlers did before): when a Generate run starts to await a call, the
    Generate button is disabled and the clean-mode checkbox is not; when a
    change of the checkbox starts to await the clean operation, both are
    disabled. This is the handler's own write just before it awaits; it
    says nothing about the rest of the wait, during which another handler
    may write [loadingState]. *)
Theorem controls_when_an_await_begins svc st k c service_log :
  (nth_error (fst (handleAnalysis svc st)) k = Some (Await c service_log) ->
   forall resumed,
     generate_disabled
       (run resumed (Interleave.since_last_await (firstn k (fst (handleAnalysis svc st)))))
     = true
     /\ clean_checkbox_disabled
          (run resumed
             (Interleave.since_last_await (firstn k (fst (handleAnalysis svc st)))))
        = false)
  /\ (forall checked,
        nth_error (fst (handleCleanCheck svc st checked)) k = Some (Await c service_log) ->
        forall resumed,
          generate_disabled
            (run resumed
               (Interleave.since_last_await
                  (firstn k (fst (handleCleanCheck svc st checked)))))
          = true
          /\ clean_checkbox_disabled
               (run resumed
                  (Interleave.since_last_await
                     (firstn k (fst (handleCleanCheck svc st checked)))))
             = true).
Proof.
  destruct (dashboard_rendered st) eqn:Hrendered.
  - split.
    + destruct (AppFacts.rendered_has_active st Hrendered) as [img Hactive].
      rewrite (AppFacts.handleAnalysis_eq svc st img Hrendered Hactive).
      destruct (analyzeRoomDesign svc img (selectedCategory st)) as [alog [a|ea]];
        [destruct (generateDesignVisualizations svc img (selectedCategory st) 4)
           as [vlog [v|ev]]|];
        cbn [fst app]; intros Hk;
        do 11 (destruct k as [|k]; cbn [nth_error] in Hk;
               [first [discriminate Hk | intros resumed; split; reflexivity]|]);
        destruct k; discriminate Hk.
    + intros checked.
      destruct (AppFacts.rendered_has_original st Hrendered) as [original [Hnarrow Ho]].
      destruct checked.
      * destruct (truthy (cleanImage st)) eqn:Hcached.
        -- unfold handleCleanCheck. rewrite Hnarrow, Hcached. cbn [fst negb set emit].
           intros Hk. destruct k as [|[|k]]; discriminate Hk.
        -- rewrite (handleCleanCheck_clean_eq svc st original Ho Hrendered Hcached).
           destruct (cleanRoomImage svc original) as [clog [cl|e]];
             cbn [fst]; intros Hk;
             do 7 (destruct k as [|k]; cbn [nth_error] in Hk;
                   [first [discriminate Hk | intros resumed; split; reflexivity]|]);
             destruct k; discriminate Hk.
      * unfold handleCleanCheck. rewrite Hnarrow. cbn [fst negb set emit].
        intros Hk. destruct k as [|[|k]]; discriminate Hk.
  - destruct (nothing_happens_without_an_image_helper svc st Hrendered) as [-> Hclean].
    split.
    + intros Hk. destruct k; discriminate Hk.
    + intros checked. rewrite (Hclean checked). intros Hk. destruct k; discriminate Hk.
Qed.

Lemma controls_when_an_await_begins_witness :
  generate_disabled
    (run Fixtures.uploaded_clean
       (Interleave.since_last_await
          (firstn 7 (fst (handleAnalysis Fixtures.advising_service Fixtures.uploaded)))))
  = true
  /\ clean_checkbox_disabled
       (run Fixtures.uploaded_clean
          (Interleave.since_last_await
             (firstn 7 (fst (handleAnalysis Fixtures.advising_service Fixtures.uploaded)))))
     = false.
Proof.
  exact (proj1 (controls_when_an_await_begins Fixtures.advising_service Fixtures.uploaded 7
                  (GenerateDesignVisualizations Fixtures.photo LIGHTING 4)
                  (fst (generateDesignVisualizations Fixtures.advising_service
                          Fixtures.photo LIGHTING 4)))
           eq_refl Fixtures.uploaded_clean).
Defined.

(** X17. The category buttons stay enabled during a Generate run, and the
    run works with the category selected when it started: if another
    category is selected while the analysis is awaited, both service calls
    are still made for the old category and their results are stored, and
    the gallery shows them under a heading that names the new category. *)
Theorem category_change_during_a_run svc st img adviceResult visualResult category :
  dashboard_rendered st = true ->
  activeImage st = Some img ->
  snd (analyzeRoomDesign svc img (selectedCategory st)) = Returned adviceResult ->
  snd (generateDesignVisualizations svc img (selectedCategory st) 4) = Returned visualResult ->
  nth_error (fst (handleAnalysis svc st)) 4
  = Some (Await (AnalyzeRoomDesign img (selectedCategory st))
            (fst (analyzeRoomDesign svc img (selectedCategory st))))
  /\ service_calls (fst (handleAnalysis svc st))
     = [AnalyzeRoomDesign img (selectedCategory st);
        GenerateDesignVisualizations img (selectedCategory st) 4]
  /\ run (run (state_before st (fst (handleAnalysis svc st)) 4)
             [Set_ (setSelectedCategory category)])
         (skipn 4 (fst (handleAnalysis svc st)))
     = {| originalImage := originalImage st; cleanImage := cleanImage st;
          isCleanMode := isCleanMode st; loadingState := idle;
          selectedCategory := category;
          advice := adviceResult; visualizations := visualResult; error := None;
          isDragging := isDragging st |}
  /\ View.gallery_heading
       (run (run (state_before st (fst (handleAnalysis svc st)) 4)
               [Set_ (setSelectedCategory category)])
          (skipn 4 (fst (handleAnalysis svc st))))
     = js "Visualizations: " ++ category_value category ++ js " Principles".
Proof.
  intros Hrendered Hactive Hanalysis Hvisual.
  rewrite (AppFacts.handleAnalysis_eq svc st img Hrendered Hactive).
  destruct (analyzeRoomDesign svc img (selectedCategory st)) as [alog [a|ea]];
    cbn [snd] in Hanalysis; [|discriminate Hanalysis].
  destruct (generateDesignVisualizations svc img (selectedCategory st) 4)
    as [vlog [v|ev]]; cbn [snd] in Hvisual; [|discriminate Hvisual].
  injection Hanalysis as ->. injection Hvisual as ->.
  repeat split.
Qed.

Lemma category_change_during_a_run_witness :
  selectedCategory
    (run (run (state_before Fixtures.uploaded
                 (fst (handleAnalysis Fixtures.advising_service Fixtures.uploaded)) 4)
            [Set_ (setSelectedCategory LAYOUT)])
       (skipn 4 (fst (handleAnalysis Fixtures.advising_service Fixtures.uploaded))))
  = LAYOUT
  /\ service_calls (fst (handleAnalysis Fixtures.advising_service Fixtures.uploaded))
     = [AnalyzeRoomDesign Fixtures.photo LIGHTING;
        GenerateDesignVisualizations Fixtures.photo LIGHTING 4].
Proof.
  destruct (category_change_during_a_run
              Fixtures.advising_service Fixtures.uploaded Fixtures.photo
              (Json.JArray (Fixtures.advice_items Fixtures.advice_text)) [] LAYOUT
              eq_refl eq_refl eq_refl eq_refl)
    as [_ [Hcalls [Hfinal _]]].
  split; [exact (f_equal selectedCategory Hfinal)|exact Hcalls].
Defined.

(** X18. The placeholder of the advice column ("Select a category and
    click ...") is never rendered: when there is no advice it is guarded
    by [!loadingState], and [loadingState] is always a non-empty string. *)
Theorem placeholder_is_never_rendered advice_has_items st :
  View.placeholder_rendered advice_has_items st = false.
Proof.
  unfold View.placeholder_rendered.
  destruct advice_has_items; [reflexivity|].
  destruct (loadingState st); reflexivity.
Qed.

(** X19. With the service of the repository, a Generate run sends at most
    five requests to the remote model and never repeats one after a
    failure: none without a key, one when the analysis rejects with a key
    configured, and five (one analysis and four variations) when the
    analysis resolves. *)
Theorem generate_request_count env st :
  dashboard_rendered st = true ->
  exists img,
    activeImage st = Some img
    /\ length (remote_requests (fst (handleAnalysis (geminiService env) st))) <= 5
    /\ (narrow (GeminiService.API_KEY env) = None ->
        remote_requests (fst (handleAnalysis (geminiService env) st)) = [])
    /\ (forall key e,
          narrow (GeminiService.API_KEY env) = Some key ->
          snd (GeminiService.analyzeRoomDesign env img (selectedCategory st)) = Threw e ->
          remote_requests (fst (handleAnalysis (geminiService env) st))
          = [GeminiService.analysis_request_of img (selectedCategory st)])
    /\ (forall adviceResult,
          snd (GeminiService.analyzeRoomDesign env img (selectedCategory st))
          = Returned adviceResult ->
          remote_requests (fst (handleAnalysis (geminiService env) st))
          = GeminiService.analysis_request_of img (selectedCategory st)
            :: map (GeminiService.variation_request_of img)
                 (GeminiService.variations_for (selectedCategory st))).
Proof.
  intros Hrendered.
  destruct (AppFacts.rendered_has_active st Hrendered) as [img Hactive].
  exists img. split; [exact Hactive|].
  rewrite (AppFacts.handleAnalysis_eq (geminiService env) st img Hrendered Hactive).
  cbn [geminiService analyzeRoomDesign generateDesignVisualizations].
  destruct (narrow (GeminiService.API_KEY env)) as [key|] eqn:Hkey.
  - pose proof (ServiceExtras.analyzeRoomDesign_requests_with_key env key img
                  (selectedCategory st) Hkey) as Hareq.
    destruct (VisualizeFacts.generateDesignVisualizations_eq env key img
                (selectedCategory st) 4 Hkey) as [vlog [Hvis Hvreq]].
    rewrite Hvis.
    assert (Hall : JS.slice0 (GeminiService.variations_for (selectedCategory st)) 4
                   = GeminiService.variations_for (selectedCategory st))
      by (destruct (selectedCategory st); reflexivity).
    rewrite Hall in Hvreq.
    destruct (GeminiService.analyzeRoomDesign env img (selectedCategory st))
      as [alog [a|ea]]; cbn [fst snd] in *;
      unfold remote_requests; cbn [flat_map app]; rewrite ?app_nil_r, Hareq, ?Hvreq.
    + split; [|split; [discriminate|split; [discriminate|reflexivity]]].
      cbn [app length]. rewrite length_map, VisualizeFacts.variations_length. lia.
    + split; [cbn; lia|]. split; [discriminate|]. split; [reflexivity|discriminate].
  - rewrite (AnalyzeFacts.analyzeRoomDesign_no_key env img (selectedCategory st) Hkey).
    split; [cbn; lia|]. split; [reflexivity|]. split; discriminate.
Qed.

Lemma generate_request_count_witness :
  length (remote_requests
            (fst (handleAnalysis Fixtures.advising_service Fixtures.uploaded))) = 5
  /\ length (remote_requests
               (fst (handleAnalysis Fixtures.failing_service Fixtures.uploaded))) = 1.
Proof.
  split.
  - destruct (generate_request_count
                (Fixtures.env_answering (Returned (Fixtures.text_response Fixtures.advice_text)))
                Fixtures.uploaded eq_refl) as [img [Hactive [_ [_ [_ Hfive]]]]].
    injection Hactive as <-.
    change Fixtures.advising_service
      with (geminiService (Fixtures.env_answering
              (Returned (Fixtures.text_response Fixtures.advice_text)))).
    rewrite (Hfive (Json.JArray (Fixtures.advice_items Fixtures.advice_text)) eq_refl).
    reflexivity.
  - destruct (generate_request_count
                (Fixtures.env_answering (Threw (RemoteError (js "503"))))
                Fixtures.uploaded eq_refl) as [img [Hactive [_ [_ [Hone _]]]]].
    injection Hactive as <-.
    change Fixtures.failing_service
      with (geminiService (Fixtures.env_answering (Threw (RemoteError (js "503"))))).
    rewrite (Hone (js "key") (RemoteError (js "503")) eq_refl eq_refl).
    reflexivity.
Defined.

End AppExtras.

(** * Further properties of uploads and of whole sessions *)
Module SessionExtras.
Import JS Types App Upload Session Observe Outcome Invariant.

Lemma state_events_update (log : list App.event) :
  state_events (map Update log) = log.
Proof.
  induction log as [|ev log IH]; [reflexivity|].
  cbn. unfold state_events in IH. now rewrite IH.
Qed.

Lemma run_ui_update {A} st (m : M App.event A) :
  run_ui st (fst (update m)) = run st (fst m).
Proof. unfold run_ui, update. cbn [fst]. now rewrite state_events_update. Qed.

  (** The state an upload leads to. *)
Lemma run_processFile st result :
  run st (fst (processFile result))
  = {| originalImage := Some result; cleanImage := None; isCleanMode := false;
       loadingState := loadingState st; selectedCategory := selectedCategory st;
       advice := Json.JArray []; visualizations := []; error := None;
       isDragging := isDragging st |}.
Proof. reflexivity. Qed.

Lemma run_ui_processFile_file st file :
  run_ui st (fst (processFile_file file))
  = match file_dataUrl file with
    | Some result => run st (fst (processFile result))
    | None => st
    end.
Proof.
  unfold processFile_file. destruct (file_dataUrl file) as [result|]; [|reflexivity].
  apply run_ui_update.
Qed.

(** X20. A drop always ends the dragging highlight and cancels the
    browser's default action. It uploads the first dropped file only if
    that file's type starts with "image/"; any other file, an empty drop
    and further files are ignored, and the state is otherwise unchanged. *)
Theorem drop_takes_the_first_file_if_an_image st files :
  nth_error (fst (handleDrop files)) 0 = Some PreventDefault
  /\ isDragging (run_ui st (fst (handleDrop files))) = false
  /\ (forall file rest result,
        files = Some (file :: rest) ->
        startsWith (file_type file) (js "image/") = true ->
        file_dataUrl file = Some result ->
        run_ui st (fst (handleDrop files))
        = {| originalImage := Some result; cleanImage := None; isCleanMode := false;
             loadingState := loadingState st; selectedCategory := selectedCategory st;
             advice := Json.JArray []; visualizations := []; error := None;
             isDragging := false |})
  /\ (match files with
      | Some (file :: _) => startsWith (file_type file) (js "image/") = false
      | _ => True
      end ->
      run_ui st (fst (handleDrop files)) = apply_setter (setIsDragging false) st).
Proof.
  unfold handleDrop.
  destruct files as [[|file rest]|]; cbn [first_file].
  - split; [reflexivity|]. split; [reflexivity|].
    split; [intros file rest result H; discriminate H|]. intros _. reflexivity.
  - destruct (startsWith (file_type file) (js "image/")) eqn:Htype.
    + unfold processFile_file.
      destruct (file_dataUrl file) as [result|] eqn:Hread;
        (split; [reflexivity|]); (split; [reflexivity|]);
        (split; [|intros Hfalse; discriminate Hfalse]);
        intros f r res [= <- <-] _ Hres; rewrite Hread in Hres.
      * injection Hres as <-. reflexivity.
      * discriminate Hres.
    + split; [reflexivity|]. split; [reflexivity|]. split; [|intros _; reflexivity].
      intros f r res [= <- <-] Himage. rewrite Htype in Himage. discriminate Himage.
  - split; [reflexivity|]. split; [reflexivity|].
    split; [intros file rest result H; discriminate H|]. intros _. reflexivity.
Qed.

Lemma drop_takes_the_first_file_if_an_image_witness :
  originalImage
    (run_ui initialState
       (fst (handleDrop (Some [{| file_type := js "image/png";
                                  file_dataUrl := Some Fixtures.other_photo |};
                               {| file_type := js "image/jpeg";
                                  file_dataUrl := Some Fixtures.photo |}]))))
  = Some Fixtures.other_photo
  /\ run_ui initialState
       (fst (handleDrop (Some [{| file_type := js "application/pdf";
                                  file_dataUrl := Some (js "data:application/pdf;base64,JVBERi0") |}])))
     = apply_setter (setIsDragging false) initialState.
Proof.
  split.
  - exact (f_equal originalImage
      (proj1 (proj2 (proj2
        (drop_takes_the_first_file_if_an_image initialState
           (Some [{| file_type := js "image/png";
                     file_dataUrl := Some Fixtures.other_photo |};
                  {| file_type := js "image/jpeg";
                     file_dataUrl := Some Fixtures.photo |}]))))
        _ _ Fixtures.other_photo eq_refl eq_refl eq_refl)).
  - exact (proj2 (proj2 (proj2
      (drop_takes_the_first_file_if_an_image initialState
         (Some [{| file_type := js "application/pdf";
                   file_dataUrl := Some (js "data:application/pdf;base64,JVBERi0") |}]))))
      eq_refl).
Defined.

(** X21. The file inputs do not look at the type of the chosen file: the
    first file is uploaded whatever its type (so a file that a drop would
    ignore is accepted here), further files are ignored, and the state
    becomes that of a fresh upload. *)
Theorem picker_takes_any_type st file rest result :
  file_dataUrl file = Some result ->
  run_ui st (fst (handleImageUpload (Some (file :: rest))))
  = {| originalImage := Some result; cleanImage := None; isCleanMode := false;
       loadingState := loadingState st; selectedCategory := selectedCategory st;
       advice := Json.JArray []; visualizations := []; error := None;
       isDragging := isDragging st |}.
Proof.
  intros Hread. unfold handleImageUpload. cbn [first_file].
  rewrite run_ui_processFile_file, Hread. apply run_processFile.
Qed.

Lemma picker_takes_any_type_witness :
  originalImage
    (run_ui initialState
       (fst (handleImageUpload
               (Some [{| file_type := js "application/pdf";
                         file_dataUrl := Some (js "data:application/pdf;base64,JVBERi0") |}]))))
  = Some (js "data:application/pdf;base64,JVBERi0").
Proof.
  exact (f_equal originalImage
    (picker_takes_any_type initialState
       {| file_type := js "application/pdf";
          file_dataUrl := Some (js "data:application/pdf;base64,JVBERi0") |}
       [] (js "data:application/pdf;base64,JVBERi0") eq_refl)).
Defined.

(** The New Image button of the dashboard does nothing: the file
    input it clicks is rendered in the landing view only, so once an image
    is shown the ref is null and no picker opens. In the landing view the
    same function opens the picker. *)
Theorem new_image_button_is_inert st :
  (dashboard_rendered st = true -> triggerUpload st = ([], Returned tt))
  /\ (dashboard_rendered st = false -> triggerUpload st = ([OpenFilePicker], Returned tt)).
Proof.
  unfold triggerUpload, fileInputRef_current.
  split; intros ->; reflexivity.
Qed.

Lemma new_image_button_is_inert_witness :
  triggerUpload Fixtures.uploaded = ([], Returned tt)
  /\ triggerUpload initialState = ([OpenFilePicker], Returned tt).
Proof.
  split.
  - exact (proj1 (new_image_button_is_inert Fixtures.uploaded) eq_refl).
  - exact (proj2 (new_image_button_is_inert initialState) eq_refl).
Defined.

  (** *** What every action preserves *)

Lemma at_rest_same st st' :
  at_rest st ->
  originalImage st' = originalImage st ->
  cleanImage st' = cleanImage st ->
  isCleanMode st' = isCleanMode st ->
  loadingState st' = loadingState st ->
  advice st' = advice st ->
  visualizations st' = visualizations st ->
  error st' = error st ->
  at_rest st'.
Proof.
  unfold at_rest, dashboard_rendered.
  intros Hrest -> -> -> -> -> -> ->. exact Hrest.
Qed.

Lemma at_rest_upload st result dragging :
  loadingState st = idle ->
  at_rest {| originalImage := Some result; cleanImage := None; isCleanMode := false;
             loadingState := loadingState st; selectedCategory := selectedCategory st;
             advice := Json.JArray []; visualizations := []; error := None;
             isDragging := dragging |}.
Proof.
  intros Hidle. unfold at_rest.
  cbn [originalImage cleanImage isCleanMode loadingState advice visualizations error].
  split; [exact Hidle|]. split; [auto|]. split; [discriminate|].
  split; [discriminate|]. split; [apply Nat.le_0_l|]. split; [constructor|auto].
Qed.

Lemma at_rest_after_upload_handler st file :
  at_rest st -> at_rest (run_ui st (fst (processFile_file file))).
Proof.
  intros Hrest. rewrite run_ui_processFile_file.
  destruct (file_dataUrl file) as [result|]; [|exact Hrest].
  rewrite run_processFile. apply at_rest_upload. exact (proj1 Hrest).
Qed.

Lemma at_rest_after_clean env st checked :
  at_rest st ->
  dashboard_rendered st = true ->
  at_rest (run st (fst (handleCleanCheck (geminiService env) st checked))).
Proof.
  intros Hrest Hrendered.
  destruct (AppFacts.rendered_has_original st Hrendered) as [original [Hnarrow Ho]].
  destruct Hrest as (Hidle & Hblank & Hclean & Hmode & Hlen & Hurls & Herr).
  assert (Hnotblank : dashboard_rendered st = false ->
            cleanImage st = None /\ isCleanMode st = false /\ advice st = Json.JArray []
            /\ visualizations st = [] /\ error st = None)
    by (intros Hf; congruence).
  destruct checked.
  - destruct (truthy (cleanImage st)) eqn:Hcached.
    + unfold handleCleanCheck. rewrite Hnarrow, Hcached.
      unfold at_rest, dashboard_rendered in *.
      cbn [negb set emit fst run fold_left apply_event apply_setter
           originalImage cleanImage isCleanMode loadingState advice visualizations error].
      split; [assumption|]. split; [intros Hf; congruence|]. split; [assumption|].
      split; [|auto].
      intros _ Hnone. rewrite Hnone in Hcached. discriminate Hcached.
    + rewrite (AppExtras.handleCleanCheck_clean_eq (geminiService env) st original
                 Ho Hrendered Hcached).
      cbn [geminiService cleanRoomImage].
      pose proof (ServiceExtras.cleaned_has_png_prefix env original) as Hprefix.
      destruct (GeminiService.cleanRoomImage env original) as [clog [cleaned|e]];
        unfold at_rest, dashboard_rendered in *;
        cbn [snd fst run fold_left apply_event apply_setter
             originalImage cleanImage isCleanMode loadingState advice visualizations error].
      * split; [reflexivity|]. split; [intros Hf; congruence|].
        split; [intros c [= <-]; now apply Hprefix|].
        split; [discriminate|]. split; [assumption|]. split; [assumption|auto].
      * split; [reflexivity|]. split; [intros Hf; congruence|].
        split; [assumption|]. split; [discriminate|].
        split; [assumption|]. split; [assumption|auto].
  - unfold handleCleanCheck. rewrite Hnarrow.
    unfold at_rest, dashboard_rendered in *.
    cbn [negb set emit fst run fold_left apply_event apply_setter
         originalImage cleanImage isCleanMode loadingState advice visualizations error].
    split; [assumption|]. split; [intros Hf; congruence|]. split; [assumption|].
    split; [discriminate|auto].
Qed.

Lemma at_rest_after_generate env st :
  at_rest st ->
  dashboard_rendered st = true ->
  at_rest (run st (fst (handleAnalysis (geminiService env) st))).
Proof.
  intros Hrest Hrendered.
  destruct (AppFacts.rendered_has_active st Hrendered) as [img Hactive].
  destruct Hrest as (Hidle & Hblank & Hclean & Hmode & Hlen & Hurls & Herr).
  rewrite (AppFacts.handleAnalysis_eq (geminiService env) st img Hrendered Hactive).
  cbn [geminiService analyzeRoomDesign generateDesignVisualizations].
  pose proof (ServiceExtras.visualizations_well_formed env img (selectedCategory st))
    as Hvis.
  destruct (GeminiService.analyzeRoomDesign env img (selectedCategory st))
    as [alog [a|ea]];
    [destruct (GeminiService.generateDesignVisualizations env img (selectedCategory st) 4)
       as [vlog [v|ev]]|];
    unfold at_rest, dashboard_rendered in *;
    cbn [snd fst app run fold_left apply_event apply_setter
         originalImage cleanImage isCleanMode loadingState advice visualizations error].
  - destruct (Hvis v eq_refl) as [Hv4 Hvurls].
    split; [reflexivity|]. split; [intros Hf; congruence|].
    split; [assumption|]. split; [assumption|]. split; [exact Hv4|]. split; [exact Hvurls|auto].
  - split; [reflexivity|]. split; [intros Hf; congruence|].
    split; [assumption|]. split; [assumption|]. split; [apply Nat.le_0_l|].
    split; [constructor|auto].
  - split; [reflexivity|]. split; [intros Hf; congruence|].
    split; [assumption|]. split; [assumption|]. split; [apply Nat.le_0_l|].
    split; [constructor|auto].
Qed.

Lemma perform_keeps_at_rest st a : at_rest st -> at_rest (perform st a).
Proof.
  intros Hrest. unfold perform.
  destruct (available st a) eqn:Havailable; [|exact Hrest].
  destruct a as [files| |inside|files| |env checked|category|env];
    cbn [handler available] in *.
  - unfold handleImageUpload. destruct (first_file files) as [file|]; [|exact Hrest].
    now apply at_rest_after_upload_handler.
  - apply (at_rest_same st); auto.
  - destruct inside; [exact Hrest|]. apply (at_rest_same st); auto.
  - unfold handleDrop.
    assert (Hdrag : at_rest (apply_setter (setIsDragging false) st))
      by (apply (at_rest_same st); auto).
    destruct (first_file files) as [file|]; [|exact Hdrag].
    destruct (startsWith (file_type file) (js "image/")); [|exact Hdrag].
    unfold processFile_file.
    destruct (file_dataUrl file) as [result|]; [|exact Hdrag].
    apply (at_rest_upload st result false). exact (proj1 Hrest).
  - unfold triggerUpload. destruct (fileInputRef_current st); exact Hrest.
  - apply andb_prop in Havailable. destruct Havailable as [Hrendered _].
    rewrite run_ui_update. now apply at_rest_after_clean.
  - apply (at_rest_same st); auto.
  - apply andb_prop in Havailable. destruct Havailable as [Hrendered _].
    rewrite run_ui_update. now apply at_rest_after_generate.
Qed.

Lemma initial_at_rest : at_rest initialState.
Proof.
  unfold at_rest. cbn. repeat split; auto; try discriminate.
Qed.

Lemma fold_keeps_at_rest actions st :
  at_rest st -> at_rest (fold_left perform actions st).
Proof.
  revert st. induction actions as [|a actions IH]; intros st Hrest; [exact Hrest|].
  cbn [fold_left]. apply IH. now apply perform_keeps_at_rest.
Qed.

Lemma session_at_rest actions : at_rest (session actions).
Proof. apply fold_keeps_at_rest, initial_at_rest. Qed.

(** X22. Between two actions the workflow is idle: whatever the user did
    and however the service answered, every handler has set
    [loadingState] back to idle, so the checkbox is enabled and, once an
    image is shown, so is the Generate button. *)
Theorem session_rests_idle actions :
  loadingState (session actions) = idle
  /\ clean_checkbox_disabled (session actions) = false
  /\ generate_disabled (session actions) = false.
Proof.
  destruct (session_at_rest actions) as [Hidle _].
  unfold clean_checkbox_disabled, generate_disabled. rewrite Hidle.
  repeat split.
Qed.

(** X23. Whenever clean mode is on between two actions, a cleaned image is
    held, it is a PNG data URL produced by the clean operation, and it is
    the active image shown and analysed. *)
Theorem session_clean_mode_shows_the_cleaned_image actions :
  isCleanMode (session actions) = true ->
  exists cleaned,
    cleanImage (session actions) = Some cleaned
    /\ startsWith cleaned png_prefix = true
    /\ activeImage (session actions) = Some cleaned
    /\ View.image_src (session actions) = Some cleaned.
Proof.
  intros Hmode.
  destruct (session_at_rest actions) as (_ & _ & Hclean & Hheld & _).
  destruct (cleanImage (session actions)) as [cleaned|] eqn:Hcached;
    [|exfalso; now apply (Hheld Hmode)].
  pose proof (Hclean cleaned eq_refl) as Hprefix.
  assert (Htruthy : truthy (Some cleaned) = true).
  { destruct cleaned; [discriminate Hprefix|reflexivity]. }
  assert (Hactive : activeImage (session actions) = Some cleaned).
  { unfold activeImage, narrow. now rewrite Hmode, Hcached, Htruthy. }
  exists cleaned. split; [reflexivity|]. split; [exact Hprefix|].
  split; [exact Hactive|].
  unfold View.image_src, narrow. now rewrite Hactive, Htruthy.
Qed.

Lemma session_clean_mode_shows_the_cleaned_image_witness :
  exists cleaned,
    cleanImage (session SessionFixtures.first_steps) = Some cleaned
    /\ startsWith cleaned png_prefix = true
    /\ activeImage (session SessionFixtures.first_steps) = Some cleaned
    /\ View.image_src (session SessionFixtures.first_steps) = Some cleaned.
Proof.
  exact (session_clean_mode_shows_the_cleaned_image SessionFixtures.first_steps eq_refl).
Defined.

(** X24. Between two actions the gallery holds at most four
    visualizations, each a PNG data URL; the error shown, if any, is one of
    the two fixed messages; and as long as no image is shown there is no
    cleaned image, advice, visualization or error either. *)
Theorem session_results_are_well_formed actions :
  length (visualizations (session actions)) <= 4
  /\ Forall (fun url => startsWith url png_prefix = true) (visualizations (session actions))
  /\ (error (session actions) = None
      \/ error (session actions) = Some analysis_failed_message
      \/ error (session actions) = Some clean_failed_message)
  /\ (dashboard_rendered (session actions) = false ->
      cleanImage (session actions) = None
      /\ isCleanMode (session actions) = false
      /\ advice (session actions) = Json.JArray []
      /\ visualizations (session actions) = []
      /\ error (session actions) = None).
Proof.
  destruct (session_at_rest actions) as (_ & Hblank & _ & _ & Hlen & Hurls & Herr).
  repeat split; try assumption; now apply Hblank.
Qed.

Lemma perform_keeps_original st a :
  dashboard_rendered st = true ->
  originalImage (perform st a) = originalImage st.
Proof.
  intros Hrendered. unfold perform.
  destruct (available st a) eqn:Havailable; [|reflexivity].
  destruct a as [files| |inside|files| |env checked|category|env];
    cbn [handler available] in *;
    try (rewrite Hrendered in Havailable; discriminate Havailable).
  - unfold triggerUpload. destruct (fileInputRef_current st); reflexivity.
  - rewrite run_ui_update.
    exact (proj1 (proj2 (AppExtras.handlers_frame (geminiService env) st) checked)).
  - reflexivity.
  - rewrite run_ui_update.
    exact (proj1 (proj1 (AppExtras.handlers_frame (geminiService env) st))).
Qed.

Lemma fold_keeps_original actions st :
  dashboard_rendered st = true ->
  originalImage (fold_left perform actions st) = originalImage st.
Proof.
  revert st. induction actions as [|a actions IH]; intros st Hrendered; [reflexivity|].
  cbn [fold_left].
  pose proof (perform_keeps_original st a Hrendered) as Hsame.
  rewrite IH; [exact Hsame|].
  unfold dashboard_rendered in *. now rewrite Hsame.
Qed.

(** X25. Once an image is shown it stays for the rest of the session: the
    file inputs and the drop zone are gone with the landing view, the New
    Image button opens nothing, and no other handler writes the original
    image. *)
Theorem session_keeps_the_first_image before after :
  dashboard_rendered (session before) = true ->
  originalImage (session (before ++ after)) = originalImage (session before).
Proof.
  intros Hrendered. unfold session in *. rewrite fold_left_app.
  now apply fold_keeps_original.
Qed.

Lemma session_keeps_the_first_image_witness :
  originalImage (session (SessionFixtures.first_steps ++ SessionFixtures.later_steps))
  = Some Fixtures.photo.
Proof.
  exact (session_keeps_the_first_image SessionFixtures.first_steps
           SessionFixtures.later_steps eq_refl).
Defined.

(** X26. A cleaned image comes back to the service as it came from it:
    after a successful clean whose response carried the inline data
    [payload] (without a comma and not empty, as base64 is), every request
    of a following Generate run sends exactly [payload] as its image
    data. *)
Theorem cleaned_image_is_sent_back_unchanged env env' st original key response payload :
  originalImage st = Some original ->
  dashboard_rendered st = true ->
  truthy (cleanImage st) = false ->
  narrow (GeminiService.API_KEY env) = Some key ->
  GeminiService.remote env key (declutter_request_of original) = Returned response ->
  GeminiService.first_inline_image (GeminiService.first_candidate_parts response)
  = Some (png_prefix ++ payload) ->
  includes GeminiService.comma payload = false ->
  payload <> [] ->
  Forall (fun params =>
            hd_error (GeminiService.contents params)
            = Some (GeminiService.inline_part (js "image/jpeg") payload))
    (remote_requests
       (fst (handleAnalysis (geminiService env')
               (run st (fst (handleCleanCheck (geminiService env) st true)))))).
Proof.
  intros Horiginal Hrendered Hcached Hkey Hremote Himage Hfree Hnonempty.
  assert (Hclean : snd (cleanRoomImage (geminiService env) original)
                   = Returned (png_prefix ++ payload)).
  { cbn [geminiService cleanRoomImage].
    now rewrite (ServiceExtras.cleanRoomImage_eq env key original Hkey), Hremote, Himage. }
  rewrite (AppExtras.run_clean_success (geminiService env) st original
             (png_prefix ++ payload) Horiginal Hrendered Hcached Hclean).
  match goal with |- Forall _ (remote_requests (fst (handleAnalysis _ ?s))) =>
    set (cleaned_state := s) end.
  assert (Hshown : dashboard_rendered cleaned_state = true).
  { unfold dashboard_rendered, cleaned_state. cbn [originalImage].
    unfold dashboard_rendered in Hrendered. now rewrite Horiginal in Hrendered. }
  destruct (AppFacts.generate_requests_carry_the_active_image env' cleaned_state Hshown)
    as [img [Hactive Hall]].
  assert (Himg : img = png_prefix ++ payload).
  { unfold activeImage, narrow, cleaned_state in Hactive.
    cbn [isCleanMode cleanImage] in Hactive.
    change (truthy (Some (png_prefix ++ payload))) with true in Hactive.
    congruence. }
  subst img.
  rewrite (ServiceExtras.cleanBase64_data_url payload Hfree) in Hall.
  destruct payload as [|c payload]; [congruence|exact Hall].
Qed.

Lemma cleaned_image_is_sent_back_unchanged_witness :
  Forall (fun params =>
            hd_error (GeminiService.contents params)
            = Some (GeminiService.inline_part (js "image/jpeg") (js "Q0xFQU4")))
    (remote_requests
       (fst (handleAnalysis (geminiService SessionFixtures.imaging_env)
               (run Fixtures.uploaded
                  (fst (handleCleanCheck (geminiService SessionFixtures.imaging_env)
                          Fixtures.uploaded true)))))).
Proof.
  refine (cleaned_image_is_sent_back_unchanged
            SessionFixtures.imaging_env SessionFixtures.imaging_env Fixtures.uploaded
            Fixtures.photo (js "key") (Fixtures.image_response (js "Q0xFQU4")) (js "Q0xFQU4")
            eq_refl eq_refl eq_refl eq_refl eq_refl eq_refl eq_refl _).
  discriminate.
Defined.

End SessionExtras.
